(** * MAX31335 real-time clock driver: register/time translation layer

    A shallow embedding of [rtc-max31335.c] (the complete driver variant and
    the earlier draft kept next to it) together with the properties of its
    register codec, alarm handling, interrupt handler and probe path.

    Layout:
    - machine integers and the kernel helpers the driver calls
      ([BIT], [GENMASK], [FIELD_GET], [FIELD_PREP], [bcd2bin], [bin2bcd]);
    - the register map behind [struct regmap], as a state monad that
      threads the register file, a fault oracle and an access trace;
    - the driver functions, in source order;
    - the theorems. *)

From Stdlib Require Import ZArith List Bool Lia String.
Import ListNotations.
Local Open Scope Z_scope.

(** ** Machine integers

    The kernel is built with [-fno-strict-overflow], so [int] arithmetic
    wraps; conversions between widths reduce modulo the width. *)

Definition u8 (x : Z) : Z := x mod 2 ^ 8.
Definition u32 (x : Z) : Z := x mod 2 ^ 32.
Definition s32 (x : Z) : Z := (x + 2 ^ 31) mod 2 ^ 32 - 2 ^ 31.

(** ** Kernel helpers (linux/bits.h, linux/bitfield.h, linux/bcd.h) *)

Definition BIT (n : Z) : Z := Z.shiftl 1 n.
Definition GENMASK (h l : Z) : Z := Z.shiftl (Z.ones (h - l + 1)) l.

(** [__bf_shf(mask)]: position of the lowest set bit of [mask]. *)
Definition __bf_shf (mask : Z) : Z := Z.log2 (Z.land mask (- mask)).

Definition FIELD_GET (mask reg : Z) : Z :=
  Z.shiftr (Z.land reg mask) (__bf_shf mask).
Definition FIELD_PREP (mask val : Z) : Z :=
  Z.land (Z.shiftl val (__bf_shf mask)) mask.

(** [unsigned _bcd2bin(unsigned char val)] *)
Definition bcd2bin (val : Z) : Z :=
  let val := u8 val in
  Z.land val 0x0f + Z.shiftr val 4 * 10.

(** [unsigned char _bin2bcd(unsigned val)] *)
Definition bin2bcd (val : Z) : Z :=
  let val := u32 val in
  u8 (Z.shiftl (val / 10) 4 + val mod 10).

(** ** Register addresses and bit fields *)

Definition MAX31335_STATUS1 : Z := 0x00.
Definition MAX31335_INT_EN : Z := 0x01.
Definition MAX31335_RTC_CONFIG : Z := 0x05.
Definition MAX31335_RTC_CONFIG2 : Z := 0x06.
Definition MAX31335_SECONDS : Z := 0x0A.
Definition MAX31335_MINUTES : Z := 0x0B.
Definition MAX31335_HOURS : Z := 0x0C.
Definition MAX31335_DAY : Z := 0x0D.
Definition MAX31335_DATE : Z := 0x0E.
Definition MAX31335_MONTH : Z := 0x0F.
Definition MAX31335_YEAR : Z := 0x0F.
Definition MAX31335_ALM1_SEC : Z := 0x11.
Definition MAX31335_ALM1_MIN : Z := 0x12.
Definition MAX31335_ALM1_HRS : Z := 0x13.
Definition MAX31335_ALM1_DAY_DATE : Z := 0x14.
Definition MAX31335_ALM1_MON : Z := 0x15.
Definition MAX31335_ALM1_YEAR : Z := 0x16.
Definition MAX31335_TRICKLE_REG : Z := 0x1D.
Definition MAX31335_AGING_OFFSET : Z := 0x1E.
Definition MAX31335_TEMP_DATA_MSB : Z := 0x35.
Definition MAX31335_TEMP_DATA_LSB : Z := 0x36.

Definition MAX31335_STATUS1_A1F : Z := BIT 0.
Definition MAX31335_INT_EN1_A1IE : Z := BIT 0.
Definition MAX31335_TRICKLE : Z := GENMASK 3 1.
Definition MAX31335_EN_TRICKLE : Z := BIT 0.
Definition MAX31335_HRS_F_AM_PM : Z := BIT 5.
Definition MAX31335_HRS_F_12_24 : Z := BIT 6.
Definition MAX31335_MONTH_CENTURY : Z := BIT 7.
Definition MAX31335_ENCLKO : Z := BIT 2.

Definition max31335_trickle_resistors : list Z := [3000; 6000; 11000].

(** ** The world the driver runs in

    [regs] is the chip's register file (8-bit registers, [val_bits = 8]).
    [fault n] is the return code of the [n]-th regmap call (0 is success, a
    negative errno a bus error), [ticks] counts the calls made so far, and
    [trace] records every observable action in program order. *)

Inductive event : Type :=
| EvRead (reg : Z)
| EvWrite (reg val : Z)
| EvBulkRead (reg : Z) (count : nat)
| EvBulkWrite (reg : Z) (vals : list Z)
| EvUpdateBits (reg mask val : Z)
| EvMutexLock
| EvMutexUnlock
| EvRtcUpdateIrq (num events : Z)
| EvDevWarn (msg : string).

Record world : Type := mkWorld {
  regs : Z -> Z;
  fault : nat -> Z;
  ticks : nat;
  trace : list event
}.

Definition M (A : Type) : Type := world -> A * world.

Definition Ret {A : Type} (a : A) : M A := fun w => (a, w).
Definition Bind {A B : Type} (m : M A) (k : A -> M B) : M B :=
  fun w => let (a, w') := m w in k a w'.

Notation "x <- m ;; k" := (Bind m (fun x => k))
  (at level 61, m at next level, right associativity).
Notation "' pat <- m ;; k" := (Bind m (fun x => match x with pat => k end))
  (at level 61, pat pattern, m at next level, right associativity).

(** [return e;] followed by statements that can no longer run: the value is
    that of [e], the rest is kept only so that the definition lines up with
    the source text. *)
Definition Return_then_dead {A : Type} (e : M A) (dead : A -> M A) : M A := e.

Definition log (e : event) : M unit :=
  fun w => (tt, mkWorld (regs w) (fault w) (ticks w) (trace w ++ [e])).

(** One regmap call: logged, and its return code drawn from the oracle. *)
Definition regmap_call (e : event) : M Z :=
  fun w => (fault w (ticks w),
            mkWorld (regs w) (fault w) (S (ticks w)) (trace w ++ [e])).

Definition reg_val (w : world) (reg : Z) : Z := u8 (regs w reg).

Definition get_reg (reg : Z) : M Z := fun w => (reg_val w reg, w).

Definition upd (f : Z -> Z) (reg val : Z) : Z -> Z :=
  fun r => if r =? reg then val else f r.

Definition put_reg (reg val : Z) : M unit :=
  fun w => (tt, mkWorld (upd (regs w) reg (u8 val)) (fault w) (ticks w) (trace w)).

(** [regmap_read(map, reg, &val)]: the pair is the return code and [*val];
    the latter is meaningful only when the code is 0. *)
Definition regmap_read (reg : Z) : M (Z * Z) :=
  ret <- regmap_call (EvRead reg) ;;
  if negb (ret =? 0) then Ret (ret, 0)
  else v <- get_reg reg ;; Ret (0, v).

(** [regmap_write(map, reg, val)]: the value is formatted into one byte. *)
Definition regmap_write (reg val : Z) : M Z :=
  ret <- regmap_call (EvWrite reg (u8 val)) ;;
  if negb (ret =? 0) then Ret ret
  else _ <- put_reg reg val ;; Ret 0.

Fixpoint get_regs (reg : Z) (count : nat) : M (list Z) :=
  match count with
  | O => Ret []
  | S n => v <- get_reg reg ;; vs <- get_regs (reg + 1) n ;; Ret (v :: vs)
  end.

Fixpoint put_regs (reg : Z) (vals : list Z) : M unit :=
  match vals with
  | [] => Ret tt
  | v :: vs => _ <- put_reg reg v ;; put_regs (reg + 1) vs
  end.

(** [regmap_bulk_read(map, reg, buf, count)] *)
Definition regmap_bulk_read (reg : Z) (count : nat) : M (Z * list Z) :=
  ret <- regmap_call (EvBulkRead reg count) ;;
  if negb (ret =? 0) then Ret (ret, [])
  else vs <- get_regs reg count ;; Ret (0, vs).

(** [regmap_bulk_write(map, reg, buf, count)] *)
Definition regmap_bulk_write (reg : Z) (vals : list Z) : M Z :=
  ret <- regmap_call (EvBulkWrite reg vals) ;;
  if negb (ret =? 0) then Ret ret
  else _ <- put_regs reg vals ;; Ret 0.

(** [regmap_update_bits(map, reg, mask, val)]: read-modify-write under
    [mask]. *)
Definition regmap_update_bits (reg mask val : Z) : M Z :=
  ret <- regmap_call (EvUpdateBits reg mask val) ;;
  if negb (ret =? 0) then Ret ret
  else
    orig <- get_reg reg ;;
    _ <- put_reg reg (Z.lor (Z.land orig (Z.lnot mask)) (Z.land val mask)) ;;
    Ret 0.

Definition mutex_lock : M unit := log EvMutexLock.
Definition mutex_unlock : M unit := log EvMutexUnlock.
Definition rtc_update_irq (num events : Z) : M unit :=
  log (EvRtcUpdateIrq num events).
Definition dev_warn (msg : string) : M unit := log (EvDevWarn msg).

(** ** Host structures (linux/rtc.h) *)

Record rtc_time : Type := mkTm {
  tm_sec : Z;
  tm_min : Z;
  tm_hour : Z;
  tm_mday : Z;
  tm_mon : Z;
  tm_year : Z;
  tm_wday : Z;
  tm_yday : Z;
  tm_isdst : Z
}.

Definition set_tm_sec (v : Z) (tm : rtc_time) : rtc_time :=
  mkTm v (tm_min tm) (tm_hour tm) (tm_mday tm) (tm_mon tm) (tm_year tm)
       (tm_wday tm) (tm_yday tm) (tm_isdst tm).
Definition set_tm_min (v : Z) (tm : rtc_time) : rtc_time :=
  mkTm (tm_sec tm) v (tm_hour tm) (tm_mday tm) (tm_mon tm) (tm_year tm)
       (tm_wday tm) (tm_yday tm) (tm_isdst tm).
Definition set_tm_hour (v : Z) (tm : rtc_time) : rtc_time :=
  mkTm (tm_sec tm) (tm_min tm) v (tm_mday tm) (tm_mon tm) (tm_year tm)
       (tm_wday tm) (tm_yday tm) (tm_isdst tm).
Definition set_tm_mday (v : Z) (tm : rtc_time) : rtc_time :=
  mkTm (tm_sec tm) (tm_min tm) (tm_hour tm) v (tm_mon tm) (tm_year tm)
       (tm_wday tm) (tm_yday tm) (tm_isdst tm).
Definition set_tm_mon (v : Z) (tm : rtc_time) : rtc_time :=
  mkTm (tm_sec tm) (tm_min tm) (tm_hour tm) (tm_mday tm) v (tm_year tm)
       (tm_wday tm) (tm_yday tm) (tm_isdst tm).
Definition set_tm_year (v : Z) (tm : rtc_time) : rtc_time :=
  mkTm (tm_sec tm) (tm_min tm) (tm_hour tm) (tm_mday tm) (tm_mon tm) v
       (tm_wday tm) (tm_yday tm) (tm_isdst tm).
Definition set_tm_wday (v : Z) (tm : rtc_time) : rtc_time :=
  mkTm (tm_sec tm) (tm_min tm) (tm_hour tm) (tm_mday tm) (tm_mon tm)
       (tm_year tm) v (tm_yday tm) (tm_isdst tm).

(** [struct rtc_wkalrm]: [enabled] and [pending] are [unsigned char]. *)
Record rtc_wkalrm : Type := mkAlrm {
  enabled : Z;
  pending : Z;
  time : rtc_time
}.

Definition set_time_of (f : rtc_time -> rtc_time) (a : rtc_wkalrm) : rtc_wkalrm :=
  mkAlrm (enabled a) (pending a) (f (time a)).

(** A local [struct rtc_time] before anything is stored in it. The driver
    reads such a local only after a successful [max31335_read_time] has
    assigned the field it reads. *)
Definition rtc_time_local : rtc_time := mkTm 0 0 0 0 0 0 0 0 0.

Inductive irqreturn_t : Type := IRQ_NONE | IRQ_HANDLED | IRQ_WAKE_THREAD.

Definition RTC_AF : Z := 0x20.
Definition RTC_IRQF : Z := 0x80.

(** Firmware properties the driver queries on its [struct device]. *)
Record device : Type := mkDevice {
  trickle_resistor_ohms : option Z;
  trickle_diode_enable : bool;
  clock_cells : bool
}.

(** [buf[i]] of a register buffer. *)
Definition el (buf : list Z) (i : nat) : Z := nth i buf 0.

(** ** The driver *)

Section VolatileReg.

(** [MAX31335_TIME_SIZE] is used by the predicate but defined nowhere in the
    sources; it is kept abstract. *)
Variable MAX31335_TIME_SIZE : Z.

(** [max31335_volatile_reg]. [None] stands for control reaching the closing
    brace of the function without a [return]. The third test is
    [reg == MAX31335_TEMP_DATA_MSB || MAX31335_TEMP_DATA_LSB]: the right
    operand is the constant itself, tested for being non-zero. *)
Definition max31335_volatile_reg (reg : Z) : option bool :=
  (* time keeping registers *)
  if (MAX31335_SECONDS <=? reg) && (reg <? MAX31335_SECONDS + MAX31335_TIME_SIZE)
  then Some true
  (* interrupt status register *)
  else if reg =? MAX31335_INT_EN1_A1IE
  then Some true
  (* temperature registers *)
  else if (reg =? MAX31335_TEMP_DATA_MSB) || negb (MAX31335_TEMP_DATA_LSB =? 0)
  then Some true
  else None.

End VolatileReg.

Definition max31335_get_hour (hour_reg : Z) : Z :=
  (* 24Hr mode *)
  if FIELD_GET MAX31335_HRS_F_12_24 hour_reg =? 0
  then s32 (bcd2bin (Z.land hour_reg 0x3f))
  else
    (* 12Hr mode *)
    let hour := s32 (bcd2bin (Z.land hour_reg 0x1f)) in
    let hour := if hour =? 12 then 0 else hour in
    let hour := if negb (FIELD_GET MAX31335_HRS_F_AM_PM hour_reg =? 0)
                then s32 (hour + 12) else hour in
    hour.

(** The assignments [max31335_read_time] makes to [*tm] from [date[]]. *)
Definition max31335_time_of_regs (date : list Z) (tm : rtc_time) : rtc_time :=
  let tm := set_tm_sec (s32 (bcd2bin (Z.land (el date 0) 0x7f))) tm in
  let tm := set_tm_min (s32 (bcd2bin (Z.land (el date 1) 0x7f))) tm in
  let tm := set_tm_hour (max31335_get_hour (el date 2)) tm in
  let tm := set_tm_wday (s32 (bcd2bin (Z.land (el date 3) 0x7) - 1)) tm in
  let tm := set_tm_mday (s32 (bcd2bin (Z.land (el date 4) 0x3f))) tm in
  let tm := set_tm_mon (s32 (bcd2bin (Z.land (el date 5) 0x1f) - 1)) tm in
  let tm := set_tm_year (s32 (bcd2bin (el date 6) + 100)) tm in
  let tm := if negb (FIELD_GET MAX31335_MONTH_CENTURY (el date 5) =? 0)
            then set_tm_year (s32 (tm_year tm + 100)) tm else tm in
  tm.

Definition max31335_read_time (tm : rtc_time) : M (Z * rtc_time) :=
  '(ret, date) <- regmap_bulk_read MAX31335_SECONDS 7 ;;
  if negb (ret =? 0) then Ret (ret, tm)
  else Ret (0, max31335_time_of_regs date tm).

(** The seven bytes [max31335_set_time] puts in [date[]]. *)
Definition max31335_time_regs (tm : rtc_time) : list Z :=
  let date0 := bin2bcd (tm_sec tm) in
  let date1 := bin2bcd (tm_min tm) in
  let date2 := bin2bcd (tm_hour tm) in
  let date3 := bin2bcd (s32 (tm_wday tm + 1)) in
  let date4 := bin2bcd (tm_mday tm) in
  let date5 := bin2bcd (s32 (tm_mon tm + 1)) in
  let date6 := bin2bcd (Z.rem (tm_year tm) 100) in
  let date5 := if 200 <=? tm_year tm
               then u8 (Z.lor date5 (FIELD_PREP MAX31335_MONTH_CENTURY 1))
               else date5 in
  [date0; date1; date2; date3; date4; date5; date6].

Definition max31335_set_time (tm : rtc_time) : M Z :=
  regmap_bulk_write MAX31335_SECONDS (max31335_time_regs tm).

(** [*offset = value] with [u32 value]: the pair is the return code and
    [*offset]. *)
Definition max31335_read_offset (offset : Z) : M (Z * Z) :=
  '(ret, value) <- regmap_read MAX31335_AGING_OFFSET ;;
  if negb (ret =? 0) then Ret (ret, offset)
  else Ret (0, u32 value).

(** [long offset] is converted to the [unsigned int val] of [regmap_write]. *)
Definition max31335_set_offset (offset : Z) : M Z :=
  regmap_write MAX31335_AGING_OFFSET (u32 offset).

Definition max31335_read_alarm (alrm : rtc_wkalrm) : M (Z * rtc_wkalrm) :=
  '(ret, regs) <- regmap_bulk_read MAX31335_ALM1_SEC 6 ;;
  if negb (ret =? 0) then Ret (ret, alrm)
  else
    let alrm := set_time_of (set_tm_sec (s32 (bcd2bin (Z.land (el regs 0) 0x7f)))) alrm in
    let alrm := set_time_of (set_tm_min (s32 (bcd2bin (Z.land (el regs 1) 0x7f)))) alrm in
    let alrm := set_time_of (set_tm_hour (s32 (bcd2bin (Z.land (el regs 2) 0x3f)))) alrm in
    let alrm := set_time_of (set_tm_mday (s32 (bcd2bin (Z.land (el regs 3) 0x3f)))) alrm in
    let alrm := set_time_of (set_tm_mon (s32 (bcd2bin (Z.land (el regs 4) 0x1f) - 1))) alrm in
    let alrm := set_time_of (set_tm_year (s32 (bcd2bin (el regs 5) + 100))) alrm in
    (* [time'] is the local [struct rtc_time time] *)
    '(ret, time') <- max31335_read_time rtc_time_local ;;
    if negb (ret =? 0) then Ret (ret, alrm)
    else
      let alrm := if 200 <=? tm_year time'
                  then set_time_of (set_tm_year (s32 (tm_year (time alrm) + 100))) alrm
                  else alrm in
      '(ret, ctrl) <- regmap_read MAX31335_INT_EN ;;
      if negb (ret =? 0) then Ret (ret, alrm)
      else
        '(ret, status) <- regmap_read MAX31335_STATUS1 ;;
        if negb (ret =? 0) then Ret (ret, alrm)
        else
          let alrm := mkAlrm (u8 (FIELD_GET MAX31335_INT_EN1_A1IE ctrl))
                             (pending alrm) (time alrm) in
          let alrm := mkAlrm (enabled alrm)
                             (u8 (FIELD_GET MAX31335_STATUS1_A1F status))
                             (time alrm) in
          Ret (0, alrm).

(** The six bytes [max31335_set_alarm] puts in [regs[]]. *)
Definition max31335_alarm_regs (alrm : rtc_wkalrm) : list Z :=
  [ bin2bcd (tm_sec (time alrm));
    bin2bcd (tm_min (time alrm));
    bin2bcd (tm_hour (time alrm));
    bin2bcd (tm_mday (time alrm));
    bin2bcd (s32 (tm_mon (time alrm) + 1));
    bin2bcd (Z.rem (tm_year (time alrm)) 100) ].

(** [max31335_set_alarm]. The source returns the result of the interrupt
    enable update directly; the check of [ret] and the update of the status
    register written after that [return] are unreachable. *)
Definition max31335_set_alarm (alrm : rtc_wkalrm) : M Z :=
  ret <- regmap_bulk_write MAX31335_ALM1_SEC (max31335_alarm_regs alrm) ;;
  if negb (ret =? 0) then Ret ret
  else
    let reg := FIELD_PREP MAX31335_INT_EN1_A1IE (enabled alrm) in
    Return_then_dead
      (regmap_update_bits MAX31335_INT_EN MAX31335_INT_EN1_A1IE reg)
      (fun _ =>
         if negb (ret =? 0) then Ret ret
         else regmap_update_bits MAX31335_STATUS1 MAX31335_STATUS1_A1F 0).

Definition max31335_alarm_irq_enable (enabled : Z) : M Z :=
  regmap_update_bits MAX31335_INT_EN MAX31335_INT_EN1_A1IE enabled.

(** [max31335_handle_irq]: both [goto exit] and the fall-through reach the
    unlock and the constant return value. *)
Definition max31335_handle_irq : M irqreturn_t :=
  _ <- mutex_lock ;;
  '(ret, status) <- regmap_read MAX31335_STATUS1 ;;
  _ <- (if negb (ret =? 0) then Ret tt
        else if negb (FIELD_GET MAX31335_STATUS1_A1F status =? 0) then
          ret <- regmap_update_bits MAX31335_STATUS1 MAX31335_STATUS1_A1F 0 ;;
          if negb (ret =? 0) then Ret tt
          else rtc_update_irq 1 (Z.lor RTC_AF RTC_IRQF)
        else Ret tt) ;;
  _ <- mutex_unlock ;;
  Ret IRQ_HANDLED.

(** The [for] loop of [max31335_trickle_charger_setup]: starting at index
    [i], stop at the first table entry equal to [ohms]; the result is the
    value of [i] after the loop. *)
Fixpoint trickle_lookup (ohms : Z) (table : list Z) (i : Z) : Z :=
  match table with
  | [] => i
  | r :: rest => if ohms =? r then i else trickle_lookup ohms rest (i + 1)
  end.

Definition max31335_trickle_charger_setup (dev : device) : M Z :=
  match trickle_resistor_ohms dev with
  | None => Ret 0
  | Some ohms =>
      let diode := if trickle_diode_enable dev then true else false in
      let i := trickle_lookup ohms max31335_trickle_resistors 0 in
      if Z.of_nat (List.length max31335_trickle_resistors) <=? i then
        _ <- dev_warn "invalid trickle resistor value\n" ;;
        Ret 0
      else
        let i := if diode then i + 4 else i + 1 in
        regmap_write MAX31335_TRICKLE_REG
                     (Z.lor (FIELD_PREP MAX31335_TRICKLE i) MAX31335_EN_TRICKLE)
  end.

(** ** Clock output

    Kernel helpers first (linux/log2.h, linux/math.h, linux/util_macros.h,
    linux/regmap.h). *)

Definition max31335_clkout_freq : list Z := [1; 64; 1024; 32768].

(** [fls_long(x)]: position of the highest set bit, counted from 1; 0 when
    [x] is 0. *)
Definition fls_long (x : Z) : Z := if x =? 0 then 0 else Z.log2 x + 1.

Definition __roundup_pow_of_two (n : Z) : Z := Z.shiftl 1 (fls_long (n - 1)).

(** [DIV_ROUND_CLOSEST(x, divisor)] on [int] operands. *)
Definition DIV_ROUND_CLOSEST (x divisor : Z) : Z :=
  if Bool.eqb (0 <? x) (0 <? divisor)
  then Z.quot (x + Z.quot divisor 2) divisor
  else Z.quot (x - Z.quot divisor 2) divisor.

(** The loop of [find_closest(x, a, as)] from index [i] on: stop at the
    first [i < as - 1] with [x <= DIV_ROUND_CLOSEST(a[i] + a[i + 1], 2)];
    the result is the value of [i] after the loop. The list is what is left
    of the table from index [i]. *)
Fixpoint find_closest_from (x : Z) (a : list Z) (i : Z) : Z :=
  match a with
  | a0 :: ((a1 :: _) as rest) =>
      if x <=? DIV_ROUND_CLOSEST (s32 (a0 + a1)) 2 then i
      else find_closest_from x rest (i + 1)
  | _ => i
  end.

Definition find_closest (x : Z) (a : list Z) : Z := find_closest_from x a 0.

Definition regmap_set_bits (reg bits : Z) : M Z :=
  regmap_update_bits reg bits bits.
Definition regmap_clear_bits (reg bits : Z) : M Z :=
  regmap_update_bits reg bits 0.

Definition max31335_clkout_recalc_rate (parent_rate : Z) : M Z :=
  '(ret, reg) <- regmap_read MAX31335_RTC_CONFIG2 ;;
  if negb (ret =? 0) then Ret 0
  else
    let freq_mask :=
      __roundup_pow_of_two (Z.of_nat (List.length max31335_clkout_freq)) - 1 in
    Ret (el max31335_clkout_freq (Z.to_nat (Z.land reg freq_mask))).

Definition max31335_clkout_round_rate (rate : Z) : Z :=
  let index := find_closest rate max31335_clkout_freq in
  el max31335_clkout_freq (Z.to_nat index).

Definition max31335_clkout_set_rate (rate parent_rate : Z) : M Z :=
  let index := find_closest rate max31335_clkout_freq in
  let freq_mask :=
    __roundup_pow_of_two (Z.of_nat (List.length max31335_clkout_freq)) - 1 in
  regmap_update_bits MAX31335_RTC_CONFIG2 freq_mask index.

Definition max31335_clkout_enable : M Z :=
  regmap_set_bits MAX31335_RTC_CONFIG2 MAX31335_ENCLKO.

(** [void]: the result of the register update is dropped. *)
Definition max31335_clkout_disable : M unit :=
  _ <- regmap_clear_bits MAX31335_RTC_CONFIG2 MAX31335_ENCLKO ;;
  Ret tt.

Definition max31335_clkout_is_enabled : M Z :=
  '(ret, reg) <- regmap_read MAX31335_RTC_CONFIG2 ;;
  if negb (ret =? 0) then Ret ret
  else Ret (if negb (Z.land reg MAX31335_ENCLKO =? 0) then 1 else 0).

(** ** Probe

    The host services [max31335_probe] calls are not part of the driver;
    their outcomes are inputs. A pointer-returning service is represented by
    its [PTR_ERR] value, 0 standing for a valid pointer. Register traffic
    that the clock framework may generate through [max31335_clkout_ops] is
    outside this model. *)

Record platform : Type := mkPlatform {
  devm_kzalloc_ok : bool;
  devm_regmap_init_i2c_err : Z;
  devm_rtc_allocate_device_err : Z;
  devm_rtc_register_device_ret : Z;
  devm_clk_hw_register_ret : Z;
  devm_of_clk_add_hw_provider_ret : Z;
  clk_prepare_enable_ret : Z;
  devm_request_threaded_irq_ret : Z
}.

Record i2c_client : Type := mkClient {
  dev : device;
  irq : Z
}.

(** The fields of [struct rtc_device] the driver touches. *)
Record rtc_device : Type := mkRtc {
  ops_set : bool;
  range_min : Z;
  range_max : Z;
  feature_alarm : bool
}.

(** What [devm_rtc_allocate_device] hands out: no ops, an empty range, the
    alarm feature advertised. *)
Definition rtc_allocated : rtc_device := mkRtc false 0 0 true.

Definition ENOMEM : Z := 12.

(** linux/rtc.h *)
Definition RTC_TIMESTAMP_BEGIN_2000 : Z := 946684800.
Definition RTC_TIMESTAMP_END_2099 : Z := 4102444799.
Definition RTC_TIMESTAMP_END_2199 : Z := 7258118399.

Definition max31335_clkout_register (pf : platform) (d : device) : Z :=
  if negb (clock_cells d) then 0
  else
    let ret := devm_clk_hw_register_ret pf in
    if negb (ret =? 0) then ret
    else
      let ret := devm_of_clk_add_hw_provider_ret pf in
      if negb (ret =? 0) then ret
      else
        let ret := clk_prepare_enable_ret pf in
        if negb (ret =? 0) then ret
        else 0.

(** The result of a probe: its return code, the RTC device as the driver
    left it (if one was allocated) and [client->irq] on exit. *)
Record probed : Type := mkProbed {
  probe_ret : Z;
  probe_rtc : option rtc_device;
  probe_irq : Z
}.

Definition max31335_probe (pf : platform) (client : i2c_client) : M probed :=
  if negb (devm_kzalloc_ok pf) then Ret (mkProbed (- ENOMEM) None (irq client))
  else if negb (devm_regmap_init_i2c_err pf =? 0)
  then Ret (mkProbed (devm_regmap_init_i2c_err pf) None (irq client))
  else
    '(ret, status) <- regmap_read MAX31335_STATUS1 ;;
    if ret <? 0 then Ret (mkProbed ret None (irq client))
    else if negb (devm_rtc_allocate_device_err pf =? 0)
    then Ret (mkProbed (devm_rtc_allocate_device_err pf) None (irq client))
    else
      let rtc := rtc_allocated in
      let rtc := mkRtc true (range_min rtc) (range_max rtc) (feature_alarm rtc) in
      let rtc := mkRtc (ops_set rtc) RTC_TIMESTAMP_BEGIN_2000 (range_max rtc)
                       (feature_alarm rtc) in
      let rtc := mkRtc (ops_set rtc) (range_min rtc) RTC_TIMESTAMP_END_2199
                       (feature_alarm rtc) in
      let ret := devm_rtc_register_device_ret pf in
      if negb (ret =? 0) then Ret (mkProbed ret (Some rtc) (irq client))
      else
        let ret := max31335_clkout_register pf (dev client) in
        if negb (ret =? 0) then Ret (mkProbed ret (Some rtc) (irq client))
        else
          client_irq <-
            (if 0 <? irq client then
               let ret := devm_request_threaded_irq_ret pf in
               if negb (ret =? 0) then
                 _ <- dev_warn "unable to request IRQ, alarm max31335 disabled\n" ;;
                 Ret 0
               else Ret (irq client)
             else Ret (irq client)) ;;
          let rtc := if client_irq =? 0
                     then mkRtc (ops_set rtc) (range_min rtc) (range_max rtc) false
                     else rtc in
          _ <- max31335_trickle_charger_setup (dev client) ;;
          Ret (mkProbed 0 (Some rtc) client_irq).

(** ** The host's view of a time range (kernel/time/time.c, drivers/rtc/lib.c,
    drivers/rtc/interface.c) *)

(** [mktime64]: seconds since 1970-01-01 of a Gregorian date, [unsigned int]
    arguments. *)
Definition mktime64 (year0 mon0 day hour min sec : Z) : Z :=
  let mon := u32 (mon0 - 2) in
  let '(mon, year) := if s32 mon <=? 0
                      then (u32 (mon + 12), u32 (year0 - 1))
                      else (mon, year0) in
  (((u32 (year / 4 - year / 100 + year / 400 + 367 * mon / 12 + day)
     + u32 (year * 365) - 719499) * 24 + hour) * 60 + min) * 60 + sec.

Definition rtc_tm_to_time64 (tm : rtc_time) : Z :=
  mktime64 (u32 (tm_year tm + 1900)) (u32 (tm_mon tm + 1)) (u32 (tm_mday tm))
           (u32 (tm_hour tm)) (u32 (tm_min tm)) (u32 (tm_sec tm)).

Definition is_leap_year (year : Z) : bool :=
  ((year mod 4 =? 0) && negb (year mod 100 =? 0)) || (year mod 400 =? 0).

Definition rtc_days_in_month : list Z :=
  [31; 28; 31; 30; 31; 30; 31; 31; 30; 31; 30; 31].

Definition rtc_month_days (month year : Z) : Z :=
  nth (Z.to_nat month) rtc_days_in_month 0
  + (if is_leap_year year && (month =? 1) then 1 else 0).

(** [rtc_valid_tm(tm) == 0]. The kernel tests month, hour, minute and second
    with one unsigned comparison each; on an [int] field that is the range
    test written here. The weekday is not examined. *)
Definition rtc_valid_tm (tm : rtc_time) : bool :=
  negb ((tm_year tm <? 70)
        || (tm_mon tm <? 0) || (12 <=? tm_mon tm)
        || (tm_mday tm <? 1)
        || (rtc_month_days (tm_mon tm) (tm_year tm + 1900) <? tm_mday tm)
        || (tm_hour tm <? 0) || (24 <=? tm_hour tm)
        || (tm_min tm <? 0) || (60 <=? tm_min tm)
        || (tm_sec tm <? 0) || (60 <=? tm_sec tm)).

(** [rtc_valid_range(rtc, tm) == 0], for a device without a start-time
    offset. *)
Definition rtc_valid_range (rtc : rtc_device) (tm : rtc_time) : bool :=
  if negb (range_min rtc =? range_max rtc) then
    let time := rtc_tm_to_time64 tm in
    negb ((time <? range_min rtc) || (range_max rtc <? time))
  else true.

(** ** The earlier draft of the driver (rtc-max31335.c) *)

Module Draft.

Definition max31335_get_time (tm : rtc_time) : M (Z * rtc_time) :=
  '(ret, date) <- regmap_bulk_read MAX31335_SECONDS 7 ;;
  if negb (ret =? 0) then Ret (ret, tm)
  else
    let tm := set_tm_sec (s32 (bcd2bin (Z.land (el date 0) 0x7f))) tm in
    let tm := set_tm_min (s32 (bcd2bin (Z.land (el date 1) 0x7f))) tm in
    let tm := set_tm_hour (s32 (bcd2bin (Z.land (el date 2) 0x3f))) tm in
    let tm := set_tm_wday (Z.land (el date 3) 0x7) tm in
    let tm := set_tm_mday (s32 (bcd2bin (Z.land (el date 4) 0x3f))) tm in
    let tm := set_tm_mon (s32 (bcd2bin (Z.land (el date 5) 0x1f) - 1)) tm in
    let tm := set_tm_year (s32 (bcd2bin (el date 6) + 100)) tm in
    Ret (0, tm).

(** The draft's probe: the IRQ is requested before the range is declared,
    there is no clock output and no trickle charger. *)
Definition max31335_probe (pf : platform) (client : i2c_client) : M probed :=
  if negb (devm_kzalloc_ok pf) then Ret (mkProbed (- ENOMEM) None (irq client))
  else if negb (devm_regmap_init_i2c_err pf =? 0)
  then Ret (mkProbed (devm_regmap_init_i2c_err pf) None (irq client))
  else
    '(ret, status) <- regmap_read MAX31335_STATUS1 ;;
    if ret <? 0 then Ret (mkProbed ret None (irq client))
    else if negb (devm_rtc_allocate_device_err pf =? 0)
    then Ret (mkProbed (devm_rtc_allocate_device_err pf) None (irq client))
    else
      let rtc := rtc_allocated in
      client_irq <-
        (if 0 <? irq client then
           let ret := devm_request_threaded_irq_ret pf in
           if negb (ret =? 0) then
             _ <- dev_warn "unable to request IRQ, alarm max31335 disabled\n" ;;
             Ret 0
           else Ret (irq client)
         else Ret (irq client)) ;;
      let rtc := if client_irq =? 0
                 then mkRtc (ops_set rtc) (range_min rtc) (range_max rtc) false
                 else rtc in
      let rtc := mkRtc (ops_set rtc) RTC_TIMESTAMP_BEGIN_2000 (range_max rtc)
                       (feature_alarm rtc) in
      let rtc := mkRtc (ops_set rtc) (range_min rtc) RTC_TIMESTAMP_END_2099
                       (feature_alarm rtc) in
      let rtc := mkRtc true (range_min rtc) (range_max rtc) (feature_alarm rtc) in
      let ret := devm_rtc_register_device_ret pf in
      if negb (ret =? 0) then Ret (mkProbed ret (Some rtc) client_irq)
      else Ret (mkProbed 0 (Some rtc) client_irq).

(** The seven bytes the draft's [max31335_set_time] puts in [date[]]. *)
Definition max31335_time_regs (tm : rtc_time) : list Z :=
  [ bin2bcd (tm_sec tm);
    bin2bcd (tm_min tm);
    bin2bcd (tm_hour tm);
    u8 (tm_wday tm);
    bin2bcd (tm_mday tm);
    bin2bcd (s32 (tm_mon tm + 1));
    bin2bcd (s32 (tm_year tm - 100)) ].

(** The draft's [max31335_set_time] returns the error of a failed write and
    otherwise reaches the end of the function without a [return]: [None]. *)
Definition max31335_set_time (tm : rtc_time) : M (option Z) :=
  ret <- regmap_bulk_write MAX31335_SECONDS (max31335_time_regs tm) ;;
  if negb (ret =? 0) then Ret (Some ret)
  else Ret None.

(** The draft's [max31335_alarm_irq_enable] does not look at [enabled]. *)
Definition max31335_alarm_irq_enable (enabled : Z) : M Z :=
  ret <- regmap_update_bits MAX31335_STATUS1 MAX31335_STATUS1_A1F 0 ;;
  if negb (ret =? 0) then Ret ret
  else regmap_update_bits MAX31335_INT_EN MAX31335_INT_EN1_A1IE
                          MAX31335_INT_EN1_A1IE.

End Draft.

(** ** Vocabulary of the statements *)

(** [P] holds of the [n] integers from [lo] on. *)
Fixpoint range_all (P : Z -> bool) (lo : Z) (n : nat) : bool :=
  match n with
  | O => true
  | S k => P lo && range_all P (lo + 1) k
  end.

(** The world after one regmap call that leaves the registers alone. *)
Definition after_call (e : event) (w : world) : world :=
  mkWorld (regs w) (fault w) (S (ticks w)) (trace w ++ [e]).

(** What a block read returns and what a block write leaves behind, as
    functions of the register file alone. *)
Fixpoint read_block (f : Z -> Z) (reg : Z) (count : nat) : list Z :=
  match count with
  | O => []
  | S n => u8 (f reg) :: read_block f (reg + 1) n
  end.

Fixpoint write_block (f : Z -> Z) (reg : Z) (vals : list Z) : Z -> Z :=
  match vals with
  | [] => f
  | v :: vs => write_block (upd f reg (u8 v)) (reg + 1) vs
  end.

(** Civil times of the supported range, in [struct rtc_time] terms: years
    2000 to 2199 are [tm_year] 100 to 299, months are 0-based, the weekday is
    0 to 6. Day 31 is allowed in every month, which only enlarges the set. *)
Definition tm_in_range (tm : rtc_time) : Prop :=
  0 <= tm_sec tm <= 59 /\ 0 <= tm_min tm <= 59 /\ 0 <= tm_hour tm <= 23 /\
  0 <= tm_wday tm <= 6 /\ 1 <= tm_mday tm <= 31 /\ 0 <= tm_mon tm <= 11 /\
  100 <= tm_year tm <= 299.

(** Agreement on the seven fields the chip keeps. *)
Definition same_time (a b : rtc_time) : Prop :=
  tm_sec a = tm_sec b /\ tm_min a = tm_min b /\ tm_hour a = tm_hour b /\
  tm_wday a = tm_wday b /\ tm_mday a = tm_mday b /\ tm_mon a = tm_mon b /\
  tm_year a = tm_year b.

(** The next [n] regmap calls succeed. *)
Definition healthy (n : nat) (w : world) : Prop :=
  forall i, (i < n)%nat -> fault w (ticks w + i) = 0.

(** The time [max31335_read_time] decodes from the registers of [w]. *)
Definition current_time (w : world) : rtc_time :=
  max31335_time_of_regs (read_block (regs w) MAX31335_SECONDS 7) rtc_time_local.

(** [mktime64] without the machine arithmetic: the day count of a Gregorian
    date, February counted as the last month of the previous year. *)
Definition days_from_civil (year0 mon0 day : Z) : Z :=
  let mon := if mon0 <=? 2 then mon0 + 10 else mon0 - 2 in
  let year := if mon0 <=? 2 then year0 - 1 else year0 in
  year / 4 - year / 100 + year / 400 + 367 * mon / 12 + day + year * 365 - 719499.

(** Sample worlds and values. *)

Definition world_idle : world := mkWorld (fun _ => 0) (fun _ => 0) 0 [].

(** A bus on which every transfer fails with [-EIO]. *)
Definition world_bus_down : world := mkWorld (fun _ => 0) (fun _ => -5) 0 [].

(** The hours register holds 12 AM in 12-hour format. *)
Definition world_12h : world :=
  mkWorld (upd (fun _ => 0) MAX31335_HOURS 0x52) (fun _ => 0) 0 [].

(** The alarm flag is latched in the status register. *)
Definition world_pending : world :=
  mkWorld (upd (fun _ => 0) MAX31335_STATUS1 0x01) (fun _ => 0) 0 [].

(** The clock shows 2105-01-01, the alarm year register holds BCD 07. *)
Definition world_2105 : world :=
  mkWorld (upd (upd (upd (upd (upd (fun _ => 0)
             MAX31335_DAY 0x05) MAX31335_DATE 0x01) 0x0F 0x81) 0x10 0x05)
             MAX31335_ALM1_YEAR 0x07)
          (fun _ => 0) 0 [].

(** The aging offset register holds 0x80. *)
Definition world_offset_0x80 : world :=
  mkWorld (upd (fun _ => 0) MAX31335_AGING_OFFSET 0x80) (fun _ => 0) 0 [].

(** 2000-01-01 00:00:00, a Saturday, and 2199-12-31 23:59:59, a Tuesday. *)
Definition tm_2000_begin : rtc_time := mkTm 0 0 0 1 0 100 6 0 0.
Definition tm_2199_end : rtc_time := mkTm 59 59 23 31 11 299 2 0 0.

(** The last second before and the first second after the declared range. *)
Definition tm_1999_end : rtc_time := mkTm 59 59 23 31 11 99 5 0 0.
Definition tm_2200_begin : rtc_time := mkTm 0 0 0 1 0 300 3 0 0.

(** A platform on which every host service succeeds, and a client with an
    interrupt line, a 6000 ohm trickle resistor and the diode enabled, as in
    the binding's example. *)
Definition platform_ok : platform := mkPlatform true 0 0 0 0 0 0 0.
Definition client_example : i2c_client :=
  mkClient (mkDevice (Some 6000) true false) 16.

(** An enabled alarm for 2107-03-04 05:06:07. *)
Definition alarm_2107 : rtc_wkalrm := mkAlrm 1 0 (mkTm 7 6 5 4 2 207 0 0 0).

(** Alarm times [max31335_set_alarm] can store: as [tm_in_range], without
    the weekday, which the alarm registers do not hold. *)
Definition alarm_in_range (tm : rtc_time) : Prop :=
  0 <= tm_sec tm <= 59 /\ 0 <= tm_min tm <= 59 /\ 0 <= tm_hour tm <= 23 /\
  1 <= tm_mday tm <= 31 /\ 0 <= tm_mon tm <= 11 /\ 100 <= tm_year tm <= 299.

(** The century a [tm_year] lies in, as the chip's flag counts it. *)
Definition century_of (year : Z) : Z := if 200 <=? year then 100 else 0.

(** The clock shows 2099-12-31 23:59:59. *)
Definition world_2099 : world :=
  mkWorld (write_block (fun _ => 0) MAX31335_SECONDS
                       [0x59; 0x59; 0x23; 0x05; 0x31; 0x12; 0x99])
          (fun _ => 0) 0 [].

(** Reserved and unrelated bits are set next to the fields: clock output
    enabled at 1024 Hz with the upper bits of the configuration register set,
    every interrupt enabled, every status flag latched. *)
Definition world_busy : world :=
  mkWorld (upd (upd (upd (fun _ => 0)
             MAX31335_RTC_CONFIG2 0xFE) MAX31335_INT_EN 0xFF)
             MAX31335_STATUS1 0xFF)
          (fun _ => 0) 0 [].

(** The second regmap call fails with [-EIO], every other one succeeds. *)
Definition world_second_call_fails : world :=
  mkWorld (upd (fun _ => 0) MAX31335_STATUS1 0x01)
          (fun n => if Nat.eqb n 1 then -5 else 0) 0 [].

(** 2099-12-31 23:59:59, a Thursday. *)
Definition tm_2099_end : rtc_time := mkTm 59 59 23 31 11 199 4 0 0.

(** A platform on which the IRQ cannot be requested. *)
Definition platform_no_irq : platform := mkPlatform true 0 0 0 0 0 0 (-16).

(** * Properties *)

(** ** Exhaustive checks over an interval *)

Lemma range_all_spec (P : Z -> bool) (n : nat) :
  forall lo, range_all P lo n = true ->
  forall v, lo <= v < lo + Z.of_nat n -> P v = true.
Proof.
  induction n as [|k IH]; intros lo Hall v Hv.
  - simpl in Hv. lia.
  - simpl in Hall. apply andb_true_iff in Hall as [Hlo Hrest].
    destruct (Z.eq_dec v lo) as [->|Hne]; [exact Hlo|].
    apply (IH (lo + 1) Hrest). lia.
Qed.

(** ** Machine integers *)

Lemma u8_range (x : Z) : 0 <= u8 x <= 255.
Proof. unfold u8. pose proof (Z.mod_pos_bound x (2 ^ 8) eq_refl). simpl in *. lia. Qed.

Lemma u8_small (x : Z) : 0 <= x <= 255 -> u8 x = x.
Proof. intros H. unfold u8. apply Z.mod_small. simpl. lia. Qed.

Lemma u32_small (x : Z) : 0 <= x < 2 ^ 32 -> u32 x = x.
Proof. intros H. unfold u32. now apply Z.mod_small. Qed.

Lemma s32_small (x : Z) : - 2 ^ 31 <= x < 2 ^ 31 -> s32 x = x.
Proof.
  intros H. unfold s32. rewrite Z.mod_small; lia.
Qed.

Lemma bcd2bin_bound (x : Z) : 0 <= bcd2bin x <= 165.
Proof.
  unfold bcd2bin. cbv zeta. pose proof (u8_range x) as Hb.
  set (b := u8 x) in *. clearbody b.
  assert (H : ((0 <=? Z.land b 15 + Z.shiftr b 4 * 10)
               && (Z.land b 15 + Z.shiftr b 4 * 10 <=? 165)) = true).
  { apply (range_all_spec
             (fun b => (0 <=? Z.land b 15 + Z.shiftr b 4 * 10)
                       && (Z.land b 15 + Z.shiftr b 4 * 10 <=? 165)) 256 0);
      [vm_compute; reflexivity | lia]. }
  apply andb_true_iff in H as [H1 H2].
  apply Z.leb_le in H1. apply Z.leb_le in H2. lia.
Qed.

(** ** The register map *)

Lemma get_regs_eq (count : nat) :
  forall reg w, get_regs reg count w = (read_block (regs w) reg count, w).
Proof.
  induction count as [|n IH]; intros reg w; [reflexivity|].
  simpl. unfold Bind, get_reg. rewrite IH. reflexivity.
Qed.

Lemma put_regs_eq (vals : list Z) :
  forall reg w,
    put_regs reg vals w
    = (tt, mkWorld (write_block (regs w) reg vals) (fault w) (ticks w) (trace w)).
Proof.
  induction vals as [|v vs IH]; intros reg w.
  - destruct w; reflexivity.
  - simpl. unfold Bind, put_reg. rewrite IH. reflexivity.
Qed.

Lemma write_block_below (vals : list Z) :
  forall f reg r, r < reg -> write_block f reg vals r = f r.
Proof.
  induction vals as [|v vs IH]; intros f reg r Hlt; [reflexivity|].
  simpl. rewrite IH by lia. unfold upd.
  destruct (r =? reg) eqn:E; [apply Z.eqb_eq in E; lia | reflexivity].
Qed.

(** Reading back a block that was just stored yields its bytes. *)
Lemma read_write_block (vals : list Z) :
  forall f reg,
    read_block (write_block f reg vals) reg (List.length vals)
    = map (fun v => u8 (u8 v)) vals.
Proof.
  induction vals as [|v vs IH]; intros f reg; [reflexivity|].
  simpl. rewrite IH. f_equal.
  rewrite write_block_below by lia. unfold upd. now rewrite Z.eqb_refl.
Qed.

Lemma regmap_bulk_write_ok (reg : Z) (vals : list Z) (w : world) :
  fault w (ticks w) = 0 ->
  regmap_bulk_write reg vals w
  = (0, mkWorld (write_block (regs w) reg vals) (fault w) (S (ticks w))
                (trace w ++ [EvBulkWrite reg vals])).
Proof.
  intros H. unfold regmap_bulk_write, Bind, regmap_call. rewrite H. simpl.
  rewrite put_regs_eq. reflexivity.
Qed.

Lemma regmap_bulk_read_ok (reg : Z) (count : nat) (w : world) :
  fault w (ticks w) = 0 ->
  regmap_bulk_read reg count w
  = (0, read_block (regs w) reg count, after_call (EvBulkRead reg count) w).
Proof.
  intros H. unfold regmap_bulk_read, Bind, regmap_call. rewrite H. simpl.
  rewrite get_regs_eq. reflexivity.
Qed.

Lemma regmap_bulk_read_fail (reg : Z) (count : nat) (w : world) :
  fault w (ticks w) <> 0 ->
  regmap_bulk_read reg count w
  = (fault w (ticks w), [], after_call (EvBulkRead reg count) w).
Proof.
  intros H. unfold regmap_bulk_read, Bind, regmap_call.
  apply Z.eqb_neq in H. rewrite H. reflexivity.
Qed.

Lemma regmap_read_ok (reg : Z) (w : world) :
  fault w (ticks w) = 0 ->
  regmap_read reg w = (0, reg_val w reg, after_call (EvRead reg) w).
Proof.
  intros H. unfold regmap_read, Bind, regmap_call. rewrite H. reflexivity.
Qed.

Lemma regmap_write_ok (reg val : Z) (w : world) :
  fault w (ticks w) = 0 ->
  regmap_write reg val w
  = (0, mkWorld (upd (regs w) reg (u8 val)) (fault w) (S (ticks w))
                (trace w ++ [EvWrite reg (u8 val)])).
Proof.
  intros H. unfold regmap_write, Bind, regmap_call. rewrite H. reflexivity.
Qed.

Lemma regmap_read_fail (reg : Z) (w : world) :
  fault w (ticks w) <> 0 ->
  regmap_read reg w = (fault w (ticks w), 0, after_call (EvRead reg) w).
Proof.
  intros H. unfold regmap_read, Bind, regmap_call.
  apply Z.eqb_neq in H. rewrite H. reflexivity.
Qed.

Lemma regmap_update_bits_ok (reg mask val : Z) (w : world) :
  fault w (ticks w) = 0 ->
  regmap_update_bits reg mask val w
  = (0, mkWorld (upd (regs w) reg
                     (u8 (Z.lor (Z.land (reg_val w reg) (Z.lnot mask))
                                (Z.land val mask))))
                (fault w) (S (ticks w))
                (trace w ++ [EvUpdateBits reg mask val])).
Proof.
  intros H. unfold regmap_update_bits, Bind, regmap_call. rewrite H. reflexivity.
Qed.

Lemma regmap_update_bits_fail (reg mask val : Z) (w : world) :
  fault w (ticks w) <> 0 ->
  regmap_update_bits reg mask val w
  = (fault w (ticks w), after_call (EvUpdateBits reg mask val) w).
Proof.
  intros H. unfold regmap_update_bits, Bind, regmap_call.
  apply Z.eqb_neq in H. rewrite H. reflexivity.
Qed.

Lemma regmap_bulk_write_fail (reg : Z) (vals : list Z) (w : world) :
  fault w (ticks w) <> 0 ->
  regmap_bulk_write reg vals w
  = (fault w (ticks w), after_call (EvBulkWrite reg vals) w).
Proof.
  intros H. unfold regmap_bulk_write, Bind, regmap_call.
  apply Z.eqb_neq in H. rewrite H. reflexivity.
Qed.

Lemma healthy_now (n : nat) (w : world) :
  healthy (S n) w -> fault w (ticks w) = 0.
Proof.
  intros H. specialize (H O (Nat.lt_0_succ n)). now rewrite Nat.add_0_r in H.
Qed.

Lemma healthy_next (n : nat) (w : world) (r : Z -> Z) (t : list event) :
  healthy (S n) w -> healthy n (mkWorld r (fault w) (S (ticks w)) t).
Proof.
  intros H i Hi. simpl. rewrite <- Nat.add_succ_r. apply H. lia.
Qed.

(** ** Field codecs, checked value by value *)

Ltac by_range lo n :=
  let v := fresh "v" in
  let H := fresh "H" in
  intros v H; apply Z.eqb_eq;
  match goal with
  | |- ?b = true =>
      let P := eval pattern v in b in
      match P with
      | ?f v => apply (range_all_spec f n lo); [vm_compute; reflexivity | lia]
      end
  end.

Lemma sec_codec : forall v, 0 <= v <= 59 ->
  s32 (bcd2bin (Z.land (u8 (u8 (bin2bcd v))) 0x7f)) = v.
Proof. by_range 0 60%nat. Qed.

Lemma hour_codec : forall v, 0 <= v <= 23 ->
  max31335_get_hour (u8 (u8 (bin2bcd v))) = v.
Proof. by_range 0 24%nat. Qed.

Lemma wday_codec : forall v, 0 <= v <= 6 ->
  s32 (bcd2bin (Z.land (u8 (u8 (bin2bcd (s32 (v + 1))))) 0x7) - 1) = v.
Proof. by_range 0 7%nat. Qed.

Lemma mday_codec : forall v, 1 <= v <= 31 ->
  s32 (bcd2bin (Z.land (u8 (u8 (bin2bcd v))) 0x3f)) = v.
Proof. by_range 1 31%nat. Qed.

Lemma mon_codec_lo : forall v, 0 <= v <= 11 ->
  s32 (bcd2bin (Z.land (u8 (u8 (bin2bcd (s32 (v + 1))))) 0x1f) - 1) = v.
Proof. by_range 0 12%nat. Qed.

Lemma mon_codec_hi : forall v, 0 <= v <= 11 ->
  s32 (bcd2bin (Z.land (u8 (u8 (u8 (Z.lor (bin2bcd (s32 (v + 1)))
                                          (FIELD_PREP MAX31335_MONTH_CENTURY 1)))))
                       0x1f) - 1) = v.
Proof. by_range 0 12%nat. Qed.

Lemma century_lo : forall v, 0 <= v <= 11 ->
  FIELD_GET MAX31335_MONTH_CENTURY (u8 (u8 (bin2bcd (s32 (v + 1))))) = 0.
Proof. by_range 0 12%nat. Qed.

Lemma century_hi : forall v, 0 <= v <= 11 ->
  FIELD_GET MAX31335_MONTH_CENTURY
            (u8 (u8 (u8 (Z.lor (bin2bcd (s32 (v + 1)))
                               (FIELD_PREP MAX31335_MONTH_CENTURY 1))))) = 1.
Proof. by_range 0 12%nat. Qed.

Lemma year_codec_lo : forall y, 100 <= y <= 199 ->
  s32 (bcd2bin (u8 (u8 (bin2bcd (Z.rem y 100)))) + 100) = y.
Proof. by_range 100 100%nat. Qed.

Lemma year_codec_hi : forall y, 200 <= y <= 299 ->
  s32 (s32 (bcd2bin (u8 (u8 (bin2bcd (Z.rem y 100)))) + 100) + 100) = y.
Proof. by_range 200 100%nat. Qed.

Ltac tm_fields :=
  cbn [negb Z.eqb set_tm_sec set_tm_min set_tm_hour set_tm_wday set_tm_mday
       set_tm_mon set_tm_year tm_sec tm_min tm_hour tm_wday tm_mday tm_mon
       tm_year tm_yday tm_isdst].

(** Decoding the bytes [max31335_set_time] stores gives the time back. *)
Lemma time_codec_roundtrip (tm out : rtc_time) :
  tm_in_range tm ->
  same_time (max31335_time_of_regs
               (map (fun v => u8 (u8 v)) (max31335_time_regs tm)) out) tm.
Proof.
  intros (Hs & Hm & Hh & Hw & Hd & Hmo & Hy).
  unfold max31335_time_of_regs, max31335_time_regs.
  cbn [map el nth].
  destruct (200 <=? tm_year tm) eqn:Hc.
  - apply Z.leb_le in Hc.
    rewrite century_hi by assumption. tm_fields.
    unfold same_time; tm_fields.
    rewrite !sec_codec, hour_codec, wday_codec, mday_codec,
      mon_codec_hi, year_codec_hi by lia.
    repeat split.
  - apply Z.leb_gt in Hc.
    rewrite century_lo by assumption. tm_fields.
    unfold same_time; tm_fields.
    rewrite !sec_codec, hour_codec, wday_codec, mday_codec,
      mon_codec_lo, year_codec_lo by lia.
    repeat split.
Qed.

Lemma read_time_ok (w : world) (out : rtc_time) :
  fault w (ticks w) = 0 ->
  max31335_read_time out w
  = (0, max31335_time_of_regs (read_block (regs w) MAX31335_SECONDS 7) out,
     after_call (EvBulkRead MAX31335_SECONDS 7) w).
Proof.
  intros H. unfold max31335_read_time, Bind.
  rewrite regmap_bulk_read_ok by assumption. reflexivity.
Qed.

Lemma set_then_read_time (w : world) (tm out : rtc_time) :
  tm_in_range tm ->
  healthy 2 w ->
  exists w1 w2 tm',
    max31335_set_time tm w = (0, w1) /\
    max31335_read_time out w1 = (0, tm', w2) /\
    same_time tm' tm.
Proof.
  intros Hr Hh.
  unfold max31335_set_time.
  rewrite regmap_bulk_write_ok by (eapply healthy_now; eassumption).
  eexists; eexists; eexists. split; [reflexivity|].
  rewrite read_time_ok
    by (eapply healthy_now; apply healthy_next; eassumption).
  split; [reflexivity|]. cbn [regs].
  change 7%nat with (List.length (max31335_time_regs tm)).
  rewrite read_write_block.
  now apply time_codec_roundtrip.
Qed.

(** ** Time translation *)

(** C1. Round trip: for every civil time in the supported range
    (2000-01-01T00:00:00 to 2199-12-31T23:59:59), storing it with
    [max31335_set_time] and then decoding the resulting registers with
    [max31335_read_time] returns the same second, minute, hour, weekday,
    day of month, month and year, whatever the output structure held
    before. *)
Theorem set_time_read_time_roundtrip (w : world) (tm out : rtc_time) :
  tm_in_range tm ->
  healthy 2 w ->
  exists w1 w2 tm',
    max31335_set_time tm w = (0, w1) /\
    max31335_read_time out w1 = (0, tm', w2) /\
    tm_sec tm' = tm_sec tm /\ tm_min tm' = tm_min tm /\
    tm_hour tm' = tm_hour tm /\ tm_wday tm' = tm_wday tm /\
    tm_mday tm' = tm_mday tm /\ tm_mon tm' = tm_mon tm /\
    tm_year tm' = tm_year tm.
Proof.
  intros Hr Hh.
  destruct (set_then_read_time w tm out Hr Hh) as (w1 & w2 & tm' & Hset & Hget & Hsame).
  exists w1, w2, tm'. split; [exact Hset|]. split; [exact Hget|]. exact Hsame.
Qed.

Lemma set_time_read_time_roundtrip_witness :
  exists w1 w2 tm',
    max31335_set_time tm_2199_end world_idle = (0, w1) /\
    max31335_read_time rtc_time_local w1 = (0, tm', w2) /\
    tm_sec tm' = 59 /\ tm_min tm' = 59 /\ tm_hour tm' = 23 /\
    tm_wday tm' = 2 /\ tm_mday tm' = 31 /\ tm_mon tm' = 11 /\
    tm_year tm' = 299.
Proof.
  apply (set_time_read_time_roundtrip world_idle tm_2199_end rtc_time_local).
  - unfold tm_in_range; simpl; lia.
  - intros i Hi; reflexivity.
Defined.

(** C10. [max31335_read_time] is atomic on error: when the bulk read of
    the seven time registers fails, the bus error is returned and the
    caller's [struct rtc_time] is handed back field for field as it was
    passed in; the registers are untouched and the only action is the failed
    read. The earlier draft's [max31335_get_time] behaves the same way. *)
Theorem read_time_atomic_on_error (w : world) (tm : rtc_time) :
  fault w (ticks w) <> 0 ->
  max31335_read_time tm w
  = (fault w (ticks w), tm, after_call (EvBulkRead MAX31335_SECONDS 7) w)
  /\ Draft.max31335_get_time tm w
     = (fault w (ticks w), tm, after_call (EvBulkRead MAX31335_SECONDS 7) w).
Proof.
  intros Hf. pose proof Hf as Hb. apply Z.eqb_neq in Hb.
  unfold max31335_read_time, Draft.max31335_get_time, Bind.
  rewrite regmap_bulk_read_fail by assumption.
  rewrite Hb. split; reflexivity.
Qed.

Lemma read_time_atomic_on_error_witness :
  max31335_read_time tm_2199_end world_bus_down
  = (-5, tm_2199_end, after_call (EvBulkRead MAX31335_SECONDS 7) world_bus_down)
  /\ Draft.max31335_get_time tm_2199_end world_bus_down
     = (-5, tm_2199_end, after_call (EvBulkRead MAX31335_SECONDS 7) world_bus_down).
Proof.
  apply (read_time_atomic_on_error world_bus_down tm_2199_end).
  simpl. lia.
Defined.

(** ** Hour field *)

Lemma hour_12h_pm : forall h, 1 <= h <= 11 ->
  max31335_get_hour
    (Z.lor (Z.lor MAX31335_HRS_F_12_24 MAX31335_HRS_F_AM_PM) (bin2bcd h))
  = h + 12.
Proof. by_range 1 11%nat. Qed.

Lemma hour_24h_mode_bit : forall h, 0 <= h <= 23 ->
  FIELD_GET MAX31335_HRS_F_12_24 (bin2bcd h) = 0.
Proof. by_range 0 24%nat. Qed.

Lemma hour_24h_decode : forall h, 0 <= h <= 23 ->
  max31335_get_hour (bin2bcd h) = h.
Proof. by_range 0 24%nat. Qed.

(** The claim of C4 about the encoder does not hold: with the chip in
    12-hour format (hours register 0x52, that is BCD 12, AM),
    [max31335_set_time] for hour 0 leaves 0x00 in the hours register: BCD 00
    and the 12/24 bit clear, not BCD 12 in 12-hour format. *)
Lemma set_time_hour0_is_24h_zero :
  let (ret, w') := max31335_set_time tm_2000_begin world_12h in
  ret = 0
  /\ reg_val world_12h MAX31335_HOURS
     = Z.lor MAX31335_HRS_F_12_24 (bin2bcd 12)
  /\ reg_val w' MAX31335_HOURS = 0x00
  /\ reg_val w' MAX31335_HOURS <> Z.lor MAX31335_HRS_F_12_24 (bin2bcd 12)
  /\ bcd2bin (Z.land (reg_val w' MAX31335_HOURS) 0x1f) <> 12
  /\ FIELD_GET MAX31335_HRS_F_12_24 (reg_val w' MAX31335_HOURS) = 0.
Proof.
  vm_compute. repeat split; discriminate.
Qed.

(** C4, as the code has it. The decoder branches on the 12/24 bit: BCD 12
    with AM in 12-hour format decodes to hour 0, and BCD 1 to 11 with PM
    decodes to 13 to 23. The encoder has no 12-hour format: the hour byte
    [max31335_set_time] stores is the plain BCD of the hour with the 12/24
    bit clear (0x00 for hour 0), and the decoder maps it back. *)
Theorem hour_codec_decode_12h_encode_24h (h : Z) (tm : rtc_time) :
  1 <= h <= 11 ->
  0 <= tm_hour tm <= 23 ->
  max31335_get_hour (Z.lor MAX31335_HRS_F_12_24 (bin2bcd 12)) = 0
  /\ max31335_get_hour
       (Z.lor (Z.lor MAX31335_HRS_F_12_24 MAX31335_HRS_F_AM_PM) (bin2bcd h))
     = h + 12
  /\ el (max31335_time_regs tm) 2 = bin2bcd (tm_hour tm)
  /\ FIELD_GET MAX31335_HRS_F_12_24 (el (max31335_time_regs tm) 2) = 0
  /\ max31335_get_hour (el (max31335_time_regs tm) 2) = tm_hour tm
  /\ (tm_hour tm = 0 -> el (max31335_time_regs tm) 2 = 0x00).
Proof.
  intros Hh Ht.
  split; [reflexivity|].
  split; [now apply hour_12h_pm|].
  unfold max31335_time_regs. cbn [el nth].
  split; [reflexivity|].
  split; [now apply hour_24h_mode_bit|].
  split; [now apply hour_24h_decode|].
  intros ->. reflexivity.
Qed.

Lemma hour_codec_decode_12h_encode_24h_witness :
  max31335_get_hour (Z.lor MAX31335_HRS_F_12_24 (bin2bcd 12)) = 0
  /\ max31335_get_hour
       (Z.lor (Z.lor MAX31335_HRS_F_12_24 MAX31335_HRS_F_AM_PM) (bin2bcd 11))
     = 23
  /\ el (max31335_time_regs tm_2000_begin) 2 = bin2bcd 0
  /\ FIELD_GET MAX31335_HRS_F_12_24 (el (max31335_time_regs tm_2000_begin) 2) = 0
  /\ max31335_get_hour (el (max31335_time_regs tm_2000_begin) 2) = 0
  /\ (0 = 0 -> el (max31335_time_regs tm_2000_begin) 2 = 0x00).
Proof.
  apply (hour_codec_decode_12h_encode_24h 11 tm_2000_begin).
  - lia.
  - simpl. lia.
Defined.

(** ** Interrupt handler *)

(** Whatever the bus does, the handler reports [IRQ_HANDLED] and leaves
    with the lock released: its last action is the unlock. *)
Lemma handle_irq_always_handled (w : world) :
  fst (max31335_handle_irq w) = IRQ_HANDLED
  /\ exists evs, trace (snd (max31335_handle_irq w))
                 = trace w ++ EvMutexLock :: evs ++ [EvMutexUnlock].
Proof.
  unfold max31335_handle_irq, Bind, mutex_lock, mutex_unlock, rtc_update_irq, log, Ret.
  destruct (Z.eq_dec (fault w (ticks w)) 0) as [H0|H0].
  - rewrite regmap_read_ok by exact H0.
    destruct (FIELD_GET MAX31335_STATUS1_A1F
                (reg_val (mkWorld (regs w) (fault w) (ticks w) (trace w ++ [EvMutexLock]))
                         MAX31335_STATUS1) =? 0) eqn:Hflag;
      cbn [negb Z.eqb].
    + cbv beta iota. cbn [negb fst snd trace after_call].
      split; [reflexivity|]. exists [EvRead MAX31335_STATUS1].
      unfold after_call; cbn [trace]; now rewrite <- !app_assoc.
    + cbv beta iota. cbn [negb].
      destruct (Z.eq_dec (fault w (S (ticks w))) 0) as [H1|H1].
      * rewrite regmap_update_bits_ok by exact H1.
        cbv beta iota. cbn [negb Z.eqb fst snd trace after_call].
        split; [reflexivity|].
        exists [EvRead MAX31335_STATUS1;
                EvUpdateBits MAX31335_STATUS1 MAX31335_STATUS1_A1F 0;
                EvRtcUpdateIrq 1 (Z.lor RTC_AF RTC_IRQF)].
        unfold after_call; cbn [trace]; now rewrite <- !app_assoc.
      * rewrite regmap_update_bits_fail by exact H1.
        cbv beta iota. cbn [fault ticks after_call]. apply Z.eqb_neq in H1. rewrite H1.
        cbn [negb fst snd trace].
        split; [reflexivity|].
        exists [EvRead MAX31335_STATUS1;
                EvUpdateBits MAX31335_STATUS1 MAX31335_STATUS1_A1F 0].
        unfold after_call; cbn [trace]; now rewrite <- !app_assoc.
  - rewrite regmap_read_fail by exact H0.
    cbv beta iota. cbn [fault ticks]. apply Z.eqb_neq in H0. rewrite H0.
    cbn [negb fst snd trace after_call].
    split; [reflexivity|]. exists [EvRead MAX31335_STATUS1].
    unfold after_call; cbn [trace]; now rewrite <- !app_assoc.
Qed.

(** C7. A spurious interrupt: when the status read succeeds and the alarm
    flag is already 0, the handler takes the lock, reads the status register
    once, releases the lock and reports [IRQ_HANDLED]. No register is
    written, no further register is accessed and no alarm event is sent to
    the RTC core. *)
Theorem handle_irq_spurious (w : world) :
  fault w (ticks w) = 0 ->
  FIELD_GET MAX31335_STATUS1_A1F (reg_val w MAX31335_STATUS1) = 0 ->
  max31335_handle_irq w
  = (IRQ_HANDLED,
     mkWorld (regs w) (fault w) (S (ticks w))
             (trace w ++ [EvMutexLock; EvRead MAX31335_STATUS1; EvMutexUnlock])).
Proof.
  intros Hok Hflag.
  unfold max31335_handle_irq, Bind, mutex_lock, mutex_unlock, log, Ret.
  rewrite regmap_read_ok by exact Hok.
  cbv beta iota. cbn [negb Z.eqb]. unfold reg_val in *. cbn [regs]. rewrite Hflag.
  cbn [negb Z.eqb after_call regs fault ticks trace].
  rewrite <- !app_assoc. reflexivity.
Qed.

Lemma handle_irq_spurious_witness :
  max31335_handle_irq world_idle
  = (IRQ_HANDLED,
     mkWorld (regs world_idle) (fault world_idle) 1
             [EvMutexLock; EvRead MAX31335_STATUS1; EvMutexUnlock]).
Proof.
  apply (handle_irq_spurious world_idle); reflexivity.
Defined.

(** ** Register map descriptor *)

(** C3 fails on the code. [max31335_volatile_reg] answers [true] for every
    register address, whatever [MAX31335_TIME_SIZE] is: the last test
    [reg == MAX31335_TEMP_DATA_MSB || MAX31335_TEMP_DATA_LSB] holds for
    every [reg], since its right operand is the non-zero constant 0x36. *)
Theorem volatile_reg_always_true (time_size reg : Z) :
  max31335_volatile_reg time_size reg = Some true.
Proof.
  unfold max31335_volatile_reg.
  destruct ((MAX31335_SECONDS <=? reg) && (reg <? MAX31335_SECONDS + time_size));
    [reflexivity|].
  destruct (reg =? MAX31335_INT_EN1_A1IE); [reflexivity|].
  rewrite orb_true_r. reflexivity.
Qed.

(** The configuration register 0x05 is none of the time-keeping, status or
    temperature registers, and is reported volatile; the status register
    0x00 is reported volatile only through the same last test, the test
    commented as the interrupt status register being against the value 1,
    the address of the interrupt enable register. *)
Lemma volatile_reg_config_register :
  max31335_volatile_reg 7 MAX31335_RTC_CONFIG = Some true
  /\ MAX31335_INT_EN1_A1IE = MAX31335_INT_EN
  /\ MAX31335_INT_EN1_A1IE <> MAX31335_STATUS1.
Proof.
  vm_compute. repeat split; discriminate.
Qed.

(** ** Alarm *)

(** C2 fails on the code. [max31335_set_alarm] never reaches the update of
    the status register: every action it adds to the trace is the bulk
    write of the alarm registers or the update of the interrupt enable
    register, and the status register keeps its value, so a latched alarm
    flag stays latched. *)
Theorem set_alarm_never_clears_pending (alrm : rtc_wkalrm) (w : world) :
  exists evs,
    trace (snd (max31335_set_alarm alrm w)) = trace w ++ evs
    /\ (forall mask val, ~ In (EvUpdateBits MAX31335_STATUS1 mask val) evs)
    /\ reg_val (snd (max31335_set_alarm alrm w)) MAX31335_STATUS1
       = reg_val w MAX31335_STATUS1.
Proof.
  unfold max31335_set_alarm, Return_then_dead, Bind.
  destruct (Z.eq_dec (fault w (ticks w)) 0) as [H0|H0].
  - rewrite regmap_bulk_write_ok by exact H0. cbv beta iota. cbn [negb Z.eqb].
    destruct (Z.eq_dec (fault w (S (ticks w))) 0) as [H1|H1].
    + rewrite regmap_update_bits_ok by exact H1. cbn [snd trace regs].
      eexists. rewrite <- app_assoc. split; [reflexivity|]. split.
      * intros mask val [H|[H|[]]]; discriminate H.
      * unfold reg_val at 1. cbn [regs]. unfold upd at 1.
        change (MAX31335_STATUS1 =? MAX31335_INT_EN) with false. cbv iota.
        rewrite (write_block_below _ _ MAX31335_ALM1_SEC MAX31335_STATUS1 eq_refl). reflexivity.
    + rewrite regmap_update_bits_fail by exact H1. cbn [snd trace after_call].
      eexists. rewrite <- app_assoc. split; [reflexivity|]. split.
      * intros mask val [H|[H|[]]]; discriminate H.
      * unfold reg_val, after_call. cbn [regs].
        now rewrite (write_block_below _ _ MAX31335_ALM1_SEC MAX31335_STATUS1 eq_refl).
  - rewrite regmap_bulk_write_fail by exact H0. cbv beta iota.
    apply Z.eqb_neq in H0. rewrite H0. cbn [negb snd trace after_call Ret].
    eexists. split; [reflexivity|]. split.
    + intros mask val [H|[]]; discriminate H.
    + reflexivity.
Qed.

(** The failing run: a successful [max31335_set_alarm] on a chip whose alarm
    flag is latched returns 0 after the bulk write and the interrupt enable
    update, and the flag is still set. *)
Lemma set_alarm_leaves_flag_latched :
  let (ret, w') := max31335_set_alarm alarm_2107 world_pending in
  ret = 0
  /\ FIELD_GET MAX31335_STATUS1_A1F (reg_val world_pending MAX31335_STATUS1) = 1
  /\ FIELD_GET MAX31335_STATUS1_A1F (reg_val w' MAX31335_STATUS1) = 1
  /\ FIELD_GET MAX31335_INT_EN1_A1IE (reg_val w' MAX31335_INT_EN) = 1
  /\ trace w' = [EvBulkWrite MAX31335_ALM1_SEC [0x07; 0x06; 0x05; 0x04; 0x03; 0x07];
                 EvUpdateBits MAX31335_INT_EN MAX31335_INT_EN1_A1IE 1].
Proof.
  vm_compute. repeat split.
Qed.

(** On a healthy bus [max31335_read_alarm] succeeds after four reads, and
    the year it reports is the alarm year register plus 100, plus another
    100 when the clock itself is in the second century. *)
Lemma read_alarm_ok (w : world) (alrm : rtc_wkalrm) :
  healthy 4 w ->
  exists alrm' w',
    max31335_read_alarm alrm w = (0, alrm', w')
    /\ tm_year (time alrm')
       = bcd2bin (reg_val w MAX31335_ALM1_YEAR) + 100
         + (if 200 <=? tm_year (current_time w) then 100 else 0)
    /\ trace w' = trace w ++ [EvBulkRead MAX31335_ALM1_SEC 6;
                              EvBulkRead MAX31335_SECONDS 7;
                              EvRead MAX31335_INT_EN;
                              EvRead MAX31335_STATUS1].
Proof.
  intros Hh.
  assert (H0 : fault w (ticks w) = 0) by (eapply healthy_now; eassumption).
  assert (H1 : fault w (S (ticks w)) = 0).
  { specialize (Hh 1%nat). rewrite Nat.add_1_r in Hh. apply Hh. lia. }
  assert (H2 : fault w (S (S (ticks w))) = 0).
  { specialize (Hh 2%nat). replace (ticks w + 2)%nat with (S (S (ticks w))) in Hh by lia.
    apply Hh. lia. }
  assert (H3 : fault w (S (S (S (ticks w)))) = 0).
  { specialize (Hh 3%nat). replace (ticks w + 3)%nat with (S (S (S (ticks w)))) in Hh by lia.
    apply Hh. lia. }
  unfold max31335_read_alarm, Bind.
  rewrite regmap_bulk_read_ok by exact H0. cbv beta iota. cbn [negb Z.eqb].
  rewrite read_time_ok by exact H1. cbv beta iota. cbn [negb Z.eqb].
  fold (current_time (after_call (EvBulkRead MAX31335_ALM1_SEC 6) w)).
  change (current_time (after_call (EvBulkRead MAX31335_ALM1_SEC 6) w))
    with (current_time w).
  rewrite regmap_read_ok by exact H2. cbv beta iota. cbn [negb Z.eqb].
  rewrite regmap_read_ok by exact H3. cbv beta iota. cbn [negb Z.eqb].
  eexists; eexists. split; [reflexivity|].
  split.
  - cbn [read_block el nth].
    change (MAX31335_ALM1_SEC + 1 + 1 + 1 + 1 + 1) with MAX31335_ALM1_YEAR.
    fold (reg_val w MAX31335_ALM1_YEAR).
    pose proof (bcd2bin_bound (reg_val w MAX31335_ALM1_YEAR)) as Hb.
    destruct (200 <=? tm_year (current_time w));
      cbn [set_time_of time enabled pending set_tm_sec set_tm_min set_tm_hour
           set_tm_mday set_tm_mon set_tm_year tm_year];
      rewrite !s32_small; try lia.
    rewrite s32_small; lia.
  - unfold after_call. cbn [trace]. now rewrite <- !app_assoc.
Qed.

(** C5. The alarm has no century bit: on a healthy bus
    [max31335_read_alarm] reads the current time and adds the running
    century to the stored two-digit year, so the year it reports is the
    alarm year register plus 100, plus another 100 exactly when the clock's
    [tm_year] is 200 or more. In particular, with the clock in year 2105 and
    the alarm year register holding BCD 07, the alarm year reported is 2107
    ([tm_year] counts from 1900). *)
Theorem read_alarm_live_century (w : world) (alrm : rtc_wkalrm) :
  healthy 4 w ->
  exists alrm' w',
    max31335_read_alarm alrm w = (0, alrm', w')
    /\ tm_year (time alrm')
       = bcd2bin (reg_val w MAX31335_ALM1_YEAR) + 100
         + (if 200 <=? tm_year (current_time w) then 100 else 0)
    /\ (1900 + tm_year (current_time w) = 2105 ->
        reg_val w MAX31335_ALM1_YEAR = 0x07 ->
        1900 + tm_year (time alrm') = 2107)
    /\ trace w' = trace w ++ [EvBulkRead MAX31335_ALM1_SEC 6;
                              EvBulkRead MAX31335_SECONDS 7;
                              EvRead MAX31335_INT_EN;
                              EvRead MAX31335_STATUS1].
Proof.
  intros Hh.
  destruct (read_alarm_ok w alrm Hh) as (alrm' & w' & Hrun & Hy & Htr).
  exists alrm', w'. split; [exact Hrun|]. split; [exact Hy|]. split; [|exact Htr].
  intros Hnow Hreg. rewrite Hy, Hreg.
  replace (tm_year (current_time w)) with 205 by lia. reflexivity.
Qed.

Lemma read_alarm_live_century_witness :
  exists alrm' w',
    max31335_read_alarm alarm_2107 world_2105 = (0, alrm', w')
    /\ tm_year (time alrm')
       = bcd2bin (reg_val world_2105 MAX31335_ALM1_YEAR) + 100
         + (if 200 <=? tm_year (current_time world_2105) then 100 else 0)
    /\ 1900 + tm_year (time alrm') = 2107
    /\ trace w' = trace world_2105 ++ [EvBulkRead MAX31335_ALM1_SEC 6;
                                       EvBulkRead MAX31335_SECONDS 7;
                                       EvRead MAX31335_INT_EN;
                                       EvRead MAX31335_STATUS1].
Proof.
  destruct (read_alarm_live_century world_2105 alarm_2107)
    as (alrm' & w' & Hrun & Hy & Hinst & Htr).
  - intros i Hi. reflexivity.
  - exists alrm', w'. split; [exact Hrun|]. split; [exact Hy|].
    split; [|exact Htr]. apply Hinst; reflexivity.
Defined.

(** ** Aging offset *)

Lemma read_offset_ok (w : world) (offset : Z) :
  fault w (ticks w) = 0 ->
  max31335_read_offset offset w
  = (0, reg_val w MAX31335_AGING_OFFSET, after_call (EvRead MAX31335_AGING_OFFSET) w).
Proof.
  intros H. unfold max31335_read_offset, Bind.
  rewrite regmap_read_ok by exact H. cbv beta iota. cbn [negb Z.eqb]. unfold Ret.
  rewrite u32_small; [reflexivity|].
  pose proof (u8_range (regs w MAX31335_AGING_OFFSET)). unfold reg_val.
  change (2 ^ 32) with 4294967296. lia.
Qed.

(** The claim of C6 about the sign does not hold: with 0x80 in the aging
    offset register, [max31335_read_offset] reports 128, not a negative
    value. *)
Lemma read_offset_0x80_not_negative :
  let '(ret, offset, _) := max31335_read_offset 0 world_offset_0x80 in
  ret = 0 /\ offset = 128 /\ ~ offset < 0.
Proof. vm_compute. repeat split. discriminate. Qed.

(** Storing -1 and reading the offset back gives 255: the byte 0xFF comes
    back without sign extension. *)
Lemma set_offset_minus_one_reads_255 :
  let (ret, w1) := max31335_set_offset (-1) world_idle in
  let '(ret', offset, _) := max31335_read_offset 0 w1 in
  ret = 0 /\ ret' = 0 /\ offset = 255 /\ offset <> -1.
Proof. vm_compute. repeat split. discriminate. Qed.

Lemma u8_u32 (v : Z) : u8 (u32 v) = v mod 256.
Proof.
  unfold u8, u32. change (2 ^ 32) with 4294967296. change (2 ^ 8) with 256.
  Z.div_mod_to_equations. lia.
Qed.

(** C6, as the code has it. [max31335_read_offset] returns the aging offset
    register as an unsigned byte, 0 to 255. [max31335_set_offset] validates
    nothing: for every value it succeeds and stores the value's low eight
    bits in that register, touching no other register. Storing [v] and
    reading the offset back returns [v mod 256]: [v] itself for every value
    from 0 to 255, and [v + 256] for a negative value down to -128. *)
Theorem offset_unsigned_passthrough (w : world) (v offset : Z) :
  healthy 2 w ->
  (exists w', max31335_read_offset offset w
              = (0, reg_val w MAX31335_AGING_OFFSET, w')
              /\ 0 <= reg_val w MAX31335_AGING_OFFSET <= 255)
  /\ (exists w1 w2,
        max31335_set_offset v w = (0, w1)
        /\ reg_val w1 MAX31335_AGING_OFFSET = v mod 256
        /\ (forall r, r <> MAX31335_AGING_OFFSET -> regs w1 r = regs w r)
        /\ trace w1 = trace w ++ [EvWrite MAX31335_AGING_OFFSET (v mod 256)]
        /\ max31335_read_offset offset w1 = (0, v mod 256, w2)
        /\ (0 <= v <= 255 -> max31335_read_offset offset w1 = (0, v, w2))
        /\ (-128 <= v < 0 -> max31335_read_offset offset w1 = (0, v + 256, w2))).
Proof.
  intros Hh.
  assert (H0 : fault w (ticks w) = 0) by (eapply healthy_now; eassumption).
  split.
  - eexists. split; [now apply read_offset_ok | apply u8_range].
  - unfold max31335_set_offset. rewrite regmap_write_ok by exact H0.
    rewrite u8_u32.
    set (w1 := mkWorld _ _ _ _).
    assert (Hmod : 0 <= v mod 256 <= 255)
      by (pose proof (Z.mod_pos_bound v 256); lia).
    assert (Hreg : reg_val w1 MAX31335_AGING_OFFSET = v mod 256).
    { subst w1. unfold reg_val. cbn [regs]. unfold upd. rewrite Z.eqb_refl.
      now apply u8_small. }
    assert (Hread : max31335_read_offset offset w1
                    = (0, v mod 256, after_call (EvRead MAX31335_AGING_OFFSET) w1)).
    { rewrite read_offset_ok
        by (subst w1; eapply healthy_now; apply healthy_next; eassumption).
      now rewrite Hreg. }
    exists w1. eexists. split; [reflexivity|]. split; [exact Hreg|].
    split; [|split; [reflexivity|split; [exact Hread|split]]].
    + intros r Hr. subst w1. cbn [regs]. unfold upd. apply Z.eqb_neq in Hr.
      now rewrite Hr.
    + intros Hv. rewrite Hread. now rewrite (Z.mod_small v 256) by lia.
    + intros Hv. rewrite Hread. f_equal. f_equal.
      Z.div_mod_to_equations. lia.
Qed.

Lemma offset_unsigned_passthrough_witness :
  (exists w', max31335_read_offset 0 world_offset_0x80
              = (0, reg_val world_offset_0x80 MAX31335_AGING_OFFSET, w')
              /\ 0 <= reg_val world_offset_0x80 MAX31335_AGING_OFFSET <= 255)
  /\ (exists w1 w2,
        max31335_set_offset (-1) world_offset_0x80 = (0, w1)
        /\ reg_val w1 MAX31335_AGING_OFFSET = 255
        /\ (forall r, r <> MAX31335_AGING_OFFSET -> regs w1 r = regs world_offset_0x80 r)
        /\ trace w1 = trace world_offset_0x80 ++ [EvWrite MAX31335_AGING_OFFSET 255]
        /\ max31335_read_offset 0 w1 = (0, 255, w2)
        /\ (0 <= -1 <= 255 -> max31335_read_offset 0 w1 = (0, -1, w2))
        /\ (-128 <= -1 < 0 -> max31335_read_offset 0 w1 = (0, -1 + 256, w2))).
Proof.
  apply (offset_unsigned_passthrough world_offset_0x80 (-1) 0).
  intros i Hi. reflexivity.
Defined.

(** ** Trickle charger *)

Lemma trickle_lookup_unsupported (ohms : Z) :
  ~ In ohms max31335_trickle_resistors ->
  trickle_lookup ohms max31335_trickle_resistors 0 = 3.
Proof.
  intros Hn. unfold max31335_trickle_resistors in *. cbn [trickle_lookup].
  destruct (ohms =? 3000) eqn:E1; [apply Z.eqb_eq in E1; exfalso; apply Hn; simpl; auto|].
  destruct (ohms =? 6000) eqn:E2; [apply Z.eqb_eq in E2; exfalso; apply Hn; simpl; auto|].
  destruct (ohms =? 11000) eqn:E3; [apply Z.eqb_eq in E3; exfalso; apply Hn; simpl; auto|].
  reflexivity.
Qed.

(** C8. With 6000 ohms and the diode enabled, the trickle field written is
    the table index of 6000 plus 4 (that is 5, the register byte being 0x0B
    with the enable bit). With a resistor value outside the table, nothing is
    written to any register: a warning is logged and the result is 0. *)
Theorem trickle_charger_setup_cases (w : world) (ohms : Z) (diode clk : bool) :
  fault w (ticks w) = 0 ->
  ~ In ohms max31335_trickle_resistors ->
  (exists w',
      max31335_trickle_charger_setup (mkDevice (Some 6000) true clk) w = (0, w')
      /\ FIELD_GET MAX31335_TRICKLE (reg_val w' MAX31335_TRICKLE_REG)
         = trickle_lookup 6000 max31335_trickle_resistors 0 + 4
      /\ trickle_lookup 6000 max31335_trickle_resistors 0 = 1
      /\ FIELD_GET MAX31335_EN_TRICKLE (reg_val w' MAX31335_TRICKLE_REG) = 1
      /\ trace w' = trace w ++ [EvWrite MAX31335_TRICKLE_REG 0x0B])
  /\ max31335_trickle_charger_setup (mkDevice (Some ohms) diode clk) w
     = (0, mkWorld (regs w) (fault w) (ticks w)
                   (trace w ++ [EvDevWarn "invalid trickle resistor value\n"])).
Proof.
  intros Hok Hun. split.
  - unfold max31335_trickle_charger_setup.
    cbn [trickle_resistor_ohms trickle_diode_enable].
    change (trickle_lookup 6000 max31335_trickle_resistors 0) with 1.
    cbv zeta. cbn [Z.leb Z.compare Z.of_nat List.length max31335_trickle_resistors Pos.of_succ_nat Pos.succ Pos.compare Pos.compare_cont].
    change (Z.lor (FIELD_PREP MAX31335_TRICKLE (1 + 4)) MAX31335_EN_TRICKLE) with 0x0B.
    rewrite regmap_write_ok by exact Hok.
    eexists. split; [reflexivity|].
    unfold reg_val. cbn [regs trace]. unfold upd. rewrite Z.eqb_refl.
    repeat split.
  - unfold max31335_trickle_charger_setup.
    cbn [trickle_resistor_ohms trickle_diode_enable].
    rewrite trickle_lookup_unsupported by exact Hun.
    reflexivity.
Qed.

Lemma trickle_charger_setup_cases_witness :
  (exists w',
      max31335_trickle_charger_setup (mkDevice (Some 6000) true false) world_idle = (0, w')
      /\ FIELD_GET MAX31335_TRICKLE (reg_val w' MAX31335_TRICKLE_REG)
         = trickle_lookup 6000 max31335_trickle_resistors 0 + 4
      /\ trickle_lookup 6000 max31335_trickle_resistors 0 = 1
      /\ FIELD_GET MAX31335_EN_TRICKLE (reg_val w' MAX31335_TRICKLE_REG) = 1
      /\ trace w' = trace world_idle ++ [EvWrite MAX31335_TRICKLE_REG 0x0B])
  /\ max31335_trickle_charger_setup (mkDevice (Some 5000) true false) world_idle
     = (0, mkWorld (regs world_idle) (fault world_idle) (ticks world_idle)
                   (trace world_idle ++ [EvDevWarn "invalid trickle resistor value\n"])).
Proof.
  apply (trickle_charger_setup_cases world_idle 5000 true false).
  - reflexivity.
  - simpl. intros [H|[H|[H|[]]]]; discriminate H.
Defined.

(** ** Declared time range *)

Lemma mktime64_civil (y mo d h mi s : Z) :
  1970 <= y <= 9999 -> 1 <= mo <= 12 -> 0 <= d <= 31 ->
  mktime64 y mo d h mi s = ((days_from_civil y mo d * 24 + h) * 60 + mi) * 60 + s.
Proof.
  intros Hy Hmo Hd. unfold mktime64, days_from_civil.
  assert (Hadj :
    (let mon := u32 (mo - 2) in
     if s32 mon <=? 0 then (u32 (mon + 12), u32 (y - 1)) else (mon, y))
    = (if mo <=? 2 then mo + 10 else mo - 2, if mo <=? 2 then y - 1 else y)).
  { assert (Hc : mo = 1 \/ mo = 2 \/ 3 <= mo <= 12) by lia.
    destruct Hc as [->|[->|Hc]].
    - cbv zeta. change (u32 (1 - 2)) with 4294967295.
      change (s32 4294967295 <=? 0) with true. cbv iota.
      change (u32 (4294967295 + 12)) with 11. rewrite u32_small by lia. reflexivity.
    - cbv zeta. change (u32 (2 - 2)) with 0.
      change (s32 0 <=? 0) with true. cbv iota.
      change (u32 (0 + 12)) with 12. rewrite u32_small by lia. reflexivity.
    - cbv zeta. rewrite (u32_small (mo - 2)) by lia.
      assert (Hs : s32 (mo - 2) = mo - 2).
      { unfold s32. rewrite Z.mod_small; lia. }
      rewrite Hs.
      destruct (mo - 2 <=? 0) eqn:E1; [apply Z.leb_le in E1; lia|].
      destruct (mo <=? 2) eqn:E2; [apply Z.leb_le in E2; lia|].
      reflexivity. }
  cbv zeta in Hadj. cbv zeta. rewrite Hadj.
  assert (Hm : 1 <= (if mo <=? 2 then mo + 10 else mo - 2) <= 12)
    by (destruct (mo <=? 2) eqn:E; [apply Z.leb_le in E | apply Z.leb_gt in E]; lia).
  assert (Hyy : 1969 <= (if mo <=? 2 then y - 1 else y) <= 9999)
    by (destruct (mo <=? 2); lia).
  set (mon := if mo <=? 2 then mo + 10 else mo - 2) in *.
  set (year := if mo <=? 2 then y - 1 else y) in *.
  clearbody mon year. clear Hadj.
  rewrite !u32_small; [ring | lia |].
  change (2 ^ 32) with 4294967296.
  Z.div_mod_to_equations; lia.
Qed.

Lemma rtc_month_days_le_31 (month year : Z) : rtc_month_days month year <= 31.
Proof.
  unfold rtc_month_days.
  destruct (is_leap_year year && (month =? 1)) eqn:E.
  - apply andb_true_iff in E as [_ E]. apply Z.eqb_eq in E. subst. simpl. lia.
  - assert (H : nth (Z.to_nat month) rtc_days_in_month 0 <= 31).
    { generalize (Z.to_nat month). intros n. unfold rtc_days_in_month.
      do 12 (destruct n as [|n]; [simpl; lia|]). destruct n; simpl; lia. }
    lia.
Qed.

Lemma rtc_valid_tm_fields (tm : rtc_time) :
  rtc_valid_tm tm = true ->
  70 <= tm_year tm /\ 0 <= tm_mon tm <= 11 /\ 1 <= tm_mday tm <= 31 /\
  0 <= tm_hour tm <= 23 /\ 0 <= tm_min tm <= 59 /\ 0 <= tm_sec tm <= 59.
Proof.
  unfold rtc_valid_tm. intros H. apply negb_true_iff in H.
  repeat (apply orb_false_iff in H; destruct H as [H ?]).
  repeat match goal with
         | H : (_ <? _) = false |- _ => apply Z.ltb_ge in H
         | H : (_ <=? _) = false |- _ => apply Z.leb_gt in H
         end.
  pose proof (rtc_month_days_le_31 (tm_mon tm) (tm_year tm + 1900)).
  lia.
Qed.

Lemma rtc_tm_to_time64_civil (tm : rtc_time) :
  rtc_valid_tm tm = true -> tm_year tm <= 8099 ->
  rtc_tm_to_time64 tm
  = ((days_from_civil (tm_year tm + 1900) (tm_mon tm + 1) (tm_mday tm) * 24
      + tm_hour tm) * 60 + tm_min tm) * 60 + tm_sec tm.
Proof.
  intros Hv Hy. apply rtc_valid_tm_fields in Hv.
  unfold rtc_tm_to_time64.
  rewrite !u32_small by (change (2 ^ 32) with 4294967296; lia).
  apply mktime64_civil; lia.
Qed.

(** For years up to 9999, where the 32-bit arithmetic of [mktime64] does
    not wrap, the timestamps from [RTC_TIMESTAMP_BEGIN_2000] to
    [RTC_TIMESTAMP_END_2199] are exactly those of the years 2000 to 2199. *)
Lemma range_2000_2199_years (tm : rtc_time) :
  rtc_valid_tm tm = true -> tm_year tm <= 8099 ->
  (RTC_TIMESTAMP_BEGIN_2000 <= rtc_tm_to_time64 tm <= RTC_TIMESTAMP_END_2199
   <-> 2000 <= 1900 + tm_year tm <= 2199).
Proof.
  intros Hv Hy. rewrite rtc_tm_to_time64_civil by assumption.
  apply rtc_valid_tm_fields in Hv.
  unfold RTC_TIMESTAMP_BEGIN_2000, RTC_TIMESTAMP_END_2199, days_from_civil.
  destruct (tm_mon tm + 1 <=? 2) eqn:E;
    [apply Z.leb_le in E | apply Z.leb_gt in E]; cbv zeta.
  - split; intros; Z.div_mod_to_equations; lia.
  - split; intros; Z.div_mod_to_equations; lia.
Qed.

Ltac probe_leaf := unfold Ret; cbn [fst]; intros <-; cbn [probe_ret probe_rtc].

Lemma probe_range (pf : platform) (client : i2c_client) (w : world) :
  forall p, fst (max31335_probe pf client w) = p ->
  (forall rtc, probe_rtc p = Some rtc ->
               ops_set rtc = true
               /\ range_min rtc = RTC_TIMESTAMP_BEGIN_2000
               /\ range_max rtc = RTC_TIMESTAMP_END_2199)
  /\ (probe_ret p = 0 -> probe_rtc p <> None).
Proof.
  intros p. unfold max31335_probe.
  destruct (devm_kzalloc_ok pf); cbn [negb];
    [|probe_leaf; split; [discriminate | vm_compute; discriminate]].
  destruct (devm_regmap_init_i2c_err pf =? 0) eqn:Ei; cbn [negb];
    [|probe_leaf; split; [discriminate | apply Z.eqb_neq in Ei; contradiction]].
  unfold Bind at 1.
  destruct (regmap_read MAX31335_STATUS1 w) as [[ret status] w1].
  cbv beta iota.
  destruct (ret <? 0) eqn:Er;
    [probe_leaf; split; [discriminate | intros H; apply Z.ltb_lt in Er; lia]|].
  destruct (devm_rtc_allocate_device_err pf =? 0) eqn:Ea; cbn [negb];
    [|probe_leaf; split; [discriminate | apply Z.eqb_neq in Ea; contradiction]].
  destruct (devm_rtc_register_device_ret pf =? 0); cbn [negb];
    [|probe_leaf; split; [intros rtc [= <-]; repeat split | discriminate]].
  destruct (max31335_clkout_register pf (dev client) =? 0); cbn [negb];
    [|probe_leaf; split; [intros rtc [= <-]; repeat split | discriminate]].
  unfold Bind.
  match goal with
  | |- context [let (a, w') := ?m w1 in _] => destruct (m w1) as [client_irq w2]
  end.
  destruct (max31335_trickle_charger_setup (dev client) w2) as [r w3].
  probe_leaf.
  split; [|discriminate].
  intros rtc [= <-]. destruct (client_irq =? 0); repeat split.
Qed.

(** The earlier draft declares a range that ends in 2099, in line with its
    time codec, which has no century flag. *)
Lemma draft_probe_range (pf : platform) (client : i2c_client) (w : world) :
  forall rtc, probe_rtc (fst (Draft.max31335_probe pf client w)) = Some rtc ->
              range_min rtc = RTC_TIMESTAMP_BEGIN_2000
              /\ range_max rtc = RTC_TIMESTAMP_END_2099.
Proof.
  unfold Draft.max31335_probe.
  destruct (devm_kzalloc_ok pf); cbn [negb]; [|discriminate].
  destruct (devm_regmap_init_i2c_err pf =? 0); cbn [negb]; [|discriminate].
  unfold Bind at 1.
  destruct (regmap_read MAX31335_STATUS1 w) as [[ret status] w1].
  cbv beta iota.
  destruct (ret <? 0); [discriminate|].
  destruct (devm_rtc_allocate_device_err pf =? 0); cbn [negb]; [|discriminate].
  cbv zeta. unfold Bind.
  match goal with
  | |- context [let (a, w') := ?m w1 in _] => destruct (m w1) as [client_irq w2]
  end.
  destruct (devm_rtc_register_device_ret pf =? 0); cbn [negb Ret fst probe_rtc];
    intros rtc [= <-]; destruct (client_irq =? 0); split; reflexivity.
Qed.

(** C9. A successful [max31335_probe] leaves the RTC device with the
    driver's operations installed and the range from 2000-01-01 00:00:00 to
    2199-12-31 23:59:59. For a valid time (year up to 9999, weekday 0 to 6)
    the host's range check passes exactly for the years 2000 to 2199, and
    every time that passes it is stored by [max31335_set_time] and given back
    by [max31335_read_time]. *)
Theorem probe_declares_2000_2199
    (pf : platform) (client : i2c_client) (w : world)
    (tm out : rtc_time) (w' : world) :
  probe_ret (fst (max31335_probe pf client w)) = 0 ->
  rtc_valid_tm tm = true ->
  tm_year tm <= 8099 ->
  0 <= tm_wday tm <= 6 ->
  healthy 2 w' ->
  exists rtc,
    probe_rtc (fst (max31335_probe pf client w)) = Some rtc
    /\ ops_set rtc = true
    /\ range_min rtc = RTC_TIMESTAMP_BEGIN_2000
    /\ range_max rtc = RTC_TIMESTAMP_END_2199
    /\ range_min rtc = rtc_tm_to_time64 tm_2000_begin
    /\ range_max rtc = rtc_tm_to_time64 tm_2199_end
    /\ (rtc_valid_range rtc tm = true <-> 2000 <= 1900 + tm_year tm <= 2199)
    /\ (rtc_valid_range rtc tm = true ->
        exists w1 w2 tm',
          max31335_set_time tm w' = (0, w1)
          /\ max31335_read_time out w1 = (0, tm', w2)
          /\ same_time tm' tm).
Proof.
  intros Hret Hvalid Hy Hwday Hbus.
  destruct (probe_range pf client w _ eq_refl) as [Hrange Hsome].
  destruct (probe_rtc (fst (max31335_probe pf client w))) as [rtc|] eqn:Hrtc;
    [|exfalso; exact (Hsome Hret eq_refl)].
  destruct (Hrange rtc eq_refl) as (Hops & Hmin & Hmax).
  assert (Hiff : rtc_valid_range rtc tm = true
                 <-> 2000 <= 1900 + tm_year tm <= 2199).
  { rewrite <- (range_2000_2199_years tm Hvalid Hy).
    unfold rtc_valid_range. rewrite Hmin, Hmax.
    change (negb (RTC_TIMESTAMP_BEGIN_2000 =? RTC_TIMESTAMP_END_2199)) with true.
    cbv iota zeta. rewrite negb_true_iff, orb_false_iff, Z.ltb_ge, Z.ltb_ge.
    reflexivity. }
  exists rtc. split; [reflexivity|]. split; [exact Hops|].
  split; [exact Hmin|]. split; [exact Hmax|].
  split; [rewrite Hmin; vm_compute; reflexivity|].
  split; [rewrite Hmax; vm_compute; reflexivity|].
  split; [exact Hiff|].
  intros Hin. apply Hiff in Hin.
  apply set_then_read_time; [|exact Hbus].
  apply rtc_valid_tm_fields in Hvalid. unfold tm_in_range. lia.
Qed.

Lemma probe_declares_2000_2199_witness :
  exists rtc,
    probe_rtc (fst (max31335_probe platform_ok client_example world_idle)) = Some rtc
    /\ ops_set rtc = true
    /\ range_min rtc = RTC_TIMESTAMP_BEGIN_2000
    /\ range_max rtc = RTC_TIMESTAMP_END_2199
    /\ range_min rtc = rtc_tm_to_time64 tm_2000_begin
    /\ range_max rtc = rtc_tm_to_time64 tm_2199_end
    /\ (rtc_valid_range rtc tm_2199_end = true
        <-> 2000 <= 1900 + tm_year tm_2199_end <= 2199)
    /\ (rtc_valid_range rtc tm_2199_end = true ->
        exists w1 w2 tm',
          max31335_set_time tm_2199_end world_idle = (0, w1)
          /\ max31335_read_time rtc_time_local w1 = (0, tm', w2)
          /\ same_time tm' tm_2199_end).
Proof.
  apply (probe_declares_2000_2199 platform_ok client_example world_idle
                                  tm_2199_end rtc_time_local world_idle).
  - reflexivity.
  - reflexivity.
  - simpl. lia.
  - simpl. lia.
  - intros i Hi. reflexivity.
Defined.

(** The seconds next to the range are outside it, and the example probe
    leaves the alarm feature on and programs the trickle charger. *)
Lemma probe_example_run :
  let (p, w) := max31335_probe platform_ok client_example world_idle in
  probe_ret p = 0
  /\ probe_rtc p = Some (mkRtc true RTC_TIMESTAMP_BEGIN_2000 RTC_TIMESTAMP_END_2199 true)
  /\ trace w = [EvRead MAX31335_STATUS1; EvWrite MAX31335_TRICKLE_REG 0x0B]
  /\ rtc_tm_to_time64 tm_1999_end = RTC_TIMESTAMP_BEGIN_2000 - 1
  /\ rtc_tm_to_time64 tm_2200_begin = RTC_TIMESTAMP_END_2199 + 1.
Proof.
  vm_compute. repeat split.
Qed.

(** * Further properties of the driver *)

(** ** More on the register map and on single bits *)
Lemma write_block_above (vals : list Z) :
  forall f reg r, reg + Z.of_nat (List.length vals) <= r ->
                  write_block f reg vals r = f r.
Proof.
  induction vals as [|v vs IH]; intros f reg r Hge; [reflexivity|].
  cbn [write_block]. cbn [List.length] in Hge. rewrite IH by lia.
  unfold upd. destruct (r =? reg) eqn:E; [apply Z.eqb_eq in E; lia | reflexivity].
Qed.
Lemma read_block_ext (count : nat) :
  forall f g reg,
    (forall r, reg <= r < reg + Z.of_nat count -> f r = g r) ->
    read_block f reg count = read_block g reg count.
Proof.
  induction count as [|n IH]; intros f g reg H; [reflexivity|].
  cbn [read_block]. rewrite (H reg) by lia. f_equal.
  apply IH. intros r Hr. apply H. lia.
Qed.
Lemma healthy_at (n : nat) (w : world) (i : nat) :
  healthy n w -> (i < n)%nat -> fault w (i + ticks w) = 0.
Proof. intros H Hi. rewrite Nat.add_comm. now apply H. Qed.
Lemma regmap_write_fail (reg val : Z) (w : world) :
  fault w (ticks w) <> 0 ->
  regmap_write reg val w
  = (fault w (ticks w), after_call (EvWrite reg (u8 val)) w).
Proof.
  intros H. unfold regmap_write, Bind, regmap_call.
  apply Z.eqb_neq in H. rewrite H. reflexivity.
Qed.
Lemma land_lor_disjoint (a b m : Z) :
  Z.land b m = 0 -> Z.land (Z.lor a b) m = Z.land a m.
Proof. intros H. now rewrite Z.land_lor_distr_l, H, Z.lor_0_r. Qed.
Lemma land_1_range (x : Z) : 0 <= Z.land x 1 <= 1.
Proof.
  change (Z.land x 1) with (Z.land x (Z.ones 1)). rewrite Z.land_ones by lia.
  change (2 ^ 1) with 2. pose proof (Z.mod_pos_bound x 2). lia.
Qed.
Lemma update_bit0 : forall orig, 0 <= orig <= 255 -> forall b, 0 <= b <= 1 ->
  u8 (Z.lor (Z.land orig (Z.lnot 1)) b) = Z.lor (Z.land orig 0xFE) b
  /\ FIELD_GET 1 (Z.lor (Z.land orig 0xFE) b) = b.
Proof.
  intros orig Ho b Hb.
  assert (H : ((u8 (Z.lor (Z.land orig (Z.lnot 1)) 0) =? Z.lor (Z.land orig 0xFE) 0)
               && (FIELD_GET 1 (Z.lor (Z.land orig 0xFE) 0) =? 0)
               && (u8 (Z.lor (Z.land orig (Z.lnot 1)) 1) =? Z.lor (Z.land orig 0xFE) 1)
               && (FIELD_GET 1 (Z.lor (Z.land orig 0xFE) 1) =? 1)) = true).
  { apply (range_all_spec
             (fun orig =>
                (u8 (Z.lor (Z.land orig (Z.lnot 1)) 0) =? Z.lor (Z.land orig 0xFE) 0)
                && (FIELD_GET 1 (Z.lor (Z.land orig 0xFE) 0) =? 0)
                && (u8 (Z.lor (Z.land orig (Z.lnot 1)) 1) =? Z.lor (Z.land orig 0xFE) 1)
                && (FIELD_GET 1 (Z.lor (Z.land orig 0xFE) 1) =? 1)) 256 0);
      [vm_compute; reflexivity | lia]. }
  repeat (apply andb_true_iff in H; destruct H as [H ?]).
  repeat match goal with H : (_ =? _) = true |- _ => apply Z.eqb_eq in H end.
  assert (Hc : b = 0 \/ b = 1) by lia. destruct Hc as [->| ->]; split; assumption.
Qed.
Lemma field_bit0 : forall b, 0 <= b <= 255 ->
  (FIELD_GET 1 b = 0 \/ FIELD_GET 1 b = 1)
  /\ u8 (Z.lor (Z.land b (Z.lnot 1)) (Z.land 0 1)) = Z.land b 0xFE
  /\ FIELD_GET 1 (Z.land b 0xFE) = 0.
Proof.
  intros b Hb.
  assert (H : (((FIELD_GET 1 b =? 0) || (FIELD_GET 1 b =? 1))
               && (u8 (Z.lor (Z.land b (Z.lnot 1)) (Z.land 0 1)) =? Z.land b 0xFE)
               && (FIELD_GET 1 (Z.land b 0xFE) =? 0)) = true).
  { apply (range_all_spec
             (fun b => ((FIELD_GET 1 b =? 0) || (FIELD_GET 1 b =? 1))
                       && (u8 (Z.lor (Z.land b (Z.lnot 1)) (Z.land 0 1)) =? Z.land b 0xFE)
                       && (FIELD_GET 1 (Z.land b 0xFE) =? 0)) 256 0);
      [vm_compute; reflexivity | lia]. }
  repeat (apply andb_true_iff in H; destruct H as [H ?]).
  apply orb_true_iff in H.
  repeat match goal with H : (_ =? _) = true |- _ => apply Z.eqb_eq in H end.
  repeat split; try assumption.
  destruct H as [H|H]; apply Z.eqb_eq in H; auto.
Qed.
Lemma freq_bits : forall b, 0 <= b <= 255 -> forall i, 0 <= i <= 3 ->
  u8 (Z.lor (Z.land b (Z.lnot 3)) (Z.land i 3)) = Z.lor (Z.land b 0xFC) i
  /\ Z.land (Z.lor (Z.land b 0xFC) i) 3 = i
  /\ Z.land (Z.lor (Z.land b 0xFC) i) 0xFC = Z.land b 0xFC.
Proof.
  intros b Hb i Hi.
  set (P := fun i b =>
     (u8 (Z.lor (Z.land b (Z.lnot 3)) (Z.land i 3)) =? Z.lor (Z.land b 0xFC) i)
     && (Z.land (Z.lor (Z.land b 0xFC) i) 3 =? i)
     && (Z.land (Z.lor (Z.land b 0xFC) i) 0xFC =? Z.land b 0xFC)).
  assert (H : P i b = true).
  { assert (Hc : i = 0 \/ i = 1 \/ i = 2 \/ i = 3) by lia.
    destruct Hc as [->|[->|[->| ->]]];
      match goal with
      | |- P ?k b = true =>
          apply (range_all_spec (P k) 256 0); [vm_compute; reflexivity | lia]
      end. }
  unfold P in H.
  repeat (apply andb_true_iff in H; destruct H as [H ?]).
  repeat match goal with H : (_ =? _) = true |- _ => apply Z.eqb_eq in H end.
  auto.
Qed.
Lemma enclko_bits : forall b, 0 <= b <= 255 ->
  u8 (Z.lor (Z.land b (Z.lnot 4)) (Z.land 4 4)) = Z.lor (Z.land b 0xFB) 4
  /\ u8 (Z.lor (Z.land b (Z.lnot 4)) (Z.land 0 4)) = Z.land b 0xFB
  /\ Z.land (Z.lor (Z.land b 0xFB) 4) 4 = 4
  /\ Z.land (Z.land b 0xFB) 4 = 0
  /\ Z.land (Z.lor (Z.land b 0xFB) 4) 0xFB = Z.land b 0xFB
  /\ Z.land (Z.land b 0xFB) 0xFB = Z.land b 0xFB.
Proof.
  intros b Hb.
  set (P := fun b =>
     (u8 (Z.lor (Z.land b (Z.lnot 4)) (Z.land 4 4)) =? Z.lor (Z.land b 0xFB) 4)
     && (u8 (Z.lor (Z.land b (Z.lnot 4)) (Z.land 0 4)) =? Z.land b 0xFB)
     && (Z.land (Z.lor (Z.land b 0xFB) 4) 4 =? 4)
     && (Z.land (Z.land b 0xFB) 4 =? 0)
     && (Z.land (Z.lor (Z.land b 0xFB) 4) 0xFB =? Z.land b 0xFB)
     && (Z.land (Z.land b 0xFB) 0xFB =? Z.land b 0xFB)).
  assert (H : P b = true)
    by (apply (range_all_spec P 256 0); [vm_compute; reflexivity | lia]).
  unfold P in H.
  repeat (apply andb_true_iff in H; destruct H as [H ?]).
  repeat match goal with H : (_ =? _) = true |- _ => apply Z.eqb_eq in H end.
  auto 10.
Qed.
Lemma status_int_bits : forall st, 0 <= st <= 255 -> forall ie, 0 <= ie <= 255 ->
  FIELD_GET 1 (u8 (u8 (Z.lor (Z.land st (Z.lnot 1)) (Z.land 0 1)))) = 0
  /\ FIELD_GET 1 (u8 (u8 (Z.lor (Z.land ie (Z.lnot 1)) (Z.land 1 1)))) = 1.
Proof.
  intros st Hst ie Hie. split.
  - revert st Hst. by_range 0 256%nat.
  - revert ie Hie. by_range 0 256%nat.
Qed.

(** ** Alarm: storing and reading back *)
Lemma alarm_hour_codec : forall v, 0 <= v <= 23 ->
  s32 (bcd2bin (Z.land (u8 (u8 (bin2bcd v))) 0x3f)) = v.
Proof. by_range 0 24%nat. Qed.
Lemma alarm_year_codec : forall y, 100 <= y <= 299 ->
  bcd2bin (u8 (u8 (bin2bcd (Z.rem y 100)))) + 100 = y - century_of y.
Proof. by_range 100 200%nat. Qed.
(** What a successful [max31335_set_alarm] leaves behind. *)
Lemma set_alarm_ok (w : world) (alrm : rtc_wkalrm) :
  healthy 2 w ->
  max31335_set_alarm alrm w
  = (0, mkWorld
          (upd (write_block (regs w) MAX31335_ALM1_SEC (max31335_alarm_regs alrm))
               MAX31335_INT_EN
               (Z.lor (Z.land (reg_val w MAX31335_INT_EN) 0xFE)
                      (Z.land (enabled alrm) 1)))
          (fault w) (S (S (ticks w)))
          (trace w ++ [EvBulkWrite MAX31335_ALM1_SEC (max31335_alarm_regs alrm);
                       EvUpdateBits MAX31335_INT_EN MAX31335_INT_EN1_A1IE
                                    (Z.land (enabled alrm) 1)])).
Proof.
  intros Hh.
  assert (H0 : fault w (ticks w) = 0) by (apply (healthy_at 2 w 0 Hh); lia).
  assert (H1 : fault w (S (ticks w)) = 0) by (apply (healthy_at 2 w 1 Hh); lia).
  unfold max31335_set_alarm, Return_then_dead, Bind.
  rewrite regmap_bulk_write_ok by exact H0. cbv beta iota. cbn [negb Z.eqb].
  rewrite regmap_update_bits_ok by exact H1.
  cbn [regs fault ticks trace].
  change (FIELD_PREP MAX31335_INT_EN1_A1IE (enabled alrm)) with (Z.land (enabled alrm) 1).
  change (Z.land (Z.land (enabled alrm) 1) MAX31335_INT_EN1_A1IE)
    with (Z.land (Z.land (enabled alrm) 1) 1).
  rewrite <- Z.land_assoc. change (Z.land 1 1) with 1.
  change MAX31335_INT_EN1_A1IE with 1.
  assert (Hreg : reg_val
            (mkWorld (write_block (regs w) MAX31335_ALM1_SEC (max31335_alarm_regs alrm))
                     (fault w) (S (ticks w))
                     (trace w ++ [EvBulkWrite MAX31335_ALM1_SEC (max31335_alarm_regs alrm)]))
            MAX31335_INT_EN = reg_val w MAX31335_INT_EN).
  { unfold reg_val. cbn [regs].
    now rewrite write_block_below by (vm_compute; reflexivity). }
  rewrite Hreg.
  destruct (update_bit0 (reg_val w MAX31335_INT_EN) (u8_range _)
                        (Z.land (enabled alrm) 1) (land_1_range _)) as [Hu _].
  rewrite Hu. rewrite <- app_assoc. reflexivity.
Qed.
(** The result of [max31335_read_alarm] on a healthy bus, field by field. *)
Lemma read_alarm_run (w : world) (alrm : rtc_wkalrm) :
  healthy 4 w ->
  let regs6 := read_block (regs w) MAX31335_ALM1_SEC 6 in
  max31335_read_alarm alrm w
  = (0,
     mkAlrm (u8 (FIELD_GET MAX31335_INT_EN1_A1IE (reg_val w MAX31335_INT_EN)))
            (u8 (FIELD_GET MAX31335_STATUS1_A1F (reg_val w MAX31335_STATUS1)))
            (mkTm (s32 (bcd2bin (Z.land (el regs6 0) 0x7f)))
                  (s32 (bcd2bin (Z.land (el regs6 1) 0x7f)))
                  (s32 (bcd2bin (Z.land (el regs6 2) 0x3f)))
                  (s32 (bcd2bin (Z.land (el regs6 3) 0x3f)))
                  (s32 (bcd2bin (Z.land (el regs6 4) 0x1f) - 1))
                  (if 200 <=? tm_year (current_time w)
                   then s32 (s32 (bcd2bin (el regs6 5) + 100) + 100)
                   else s32 (bcd2bin (el regs6 5) + 100))
                  (tm_wday (time alrm)) (tm_yday (time alrm)) (tm_isdst (time alrm))),
     mkWorld (regs w) (fault w) (S (S (S (S (ticks w)))))
             (trace w ++ [EvBulkRead MAX31335_ALM1_SEC 6;
                          EvBulkRead MAX31335_SECONDS 7;
                          EvRead MAX31335_INT_EN;
                          EvRead MAX31335_STATUS1])).
Proof.
  intros Hh regs6.
  assert (H0 : fault w (ticks w) = 0) by (apply (healthy_at 4 w 0 Hh); lia).
  assert (H1 : fault w (S (ticks w)) = 0) by (apply (healthy_at 4 w 1 Hh); lia).
  assert (H2 : fault w (S (S (ticks w))) = 0) by (apply (healthy_at 4 w 2 Hh); lia).
  assert (H3 : fault w (S (S (S (ticks w)))) = 0) by (apply (healthy_at 4 w 3 Hh); lia).
  unfold max31335_read_alarm, Bind.
  rewrite regmap_bulk_read_ok by exact H0. cbv beta iota. cbn [negb Z.eqb].
  rewrite read_time_ok by exact H1. cbv beta iota. cbn [negb Z.eqb].
  fold (current_time (after_call (EvBulkRead MAX31335_ALM1_SEC 6) w)).
  change (current_time (after_call (EvBulkRead MAX31335_ALM1_SEC 6) w))
    with (current_time w).
  rewrite regmap_read_ok by exact H2. cbv beta iota. cbn [negb Z.eqb].
  rewrite regmap_read_ok by exact H3. cbv beta iota. cbn [negb Z.eqb].
  fold regs6. unfold Ret, after_call, reg_val. cbn [regs fault ticks trace].
  rewrite <- !app_assoc. cbn [app].
  destruct alrm as [en pe [s mi h md mo y wd yd dst]].
  destruct (200 <=? tm_year (current_time w)); reflexivity.
Qed.
(** X1. An alarm stored with [max31335_set_alarm] and read back with
    [max31335_read_alarm] has the same second, minute, hour, day and month.
    Its year comes back in the century of the running clock: unchanged when
    alarm and clock are in the same century, 100 years off otherwise. The
    enabled flag read back is bit 0 of the one stored, and the pending flag is
    the alarm flag of the status register, which storing did not touch. *)
Theorem set_alarm_read_alarm_roundtrip (w : world) (alrm out : rtc_wkalrm) :
  healthy 6 w ->
  alarm_in_range (time alrm) ->
  exists w1 w2 alrm',
    max31335_set_alarm alrm w = (0, w1)
    /\ max31335_read_alarm out w1 = (0, alrm', w2)
    /\ tm_sec (time alrm') = tm_sec (time alrm)
    /\ tm_min (time alrm') = tm_min (time alrm)
    /\ tm_hour (time alrm') = tm_hour (time alrm)
    /\ tm_mday (time alrm') = tm_mday (time alrm)
    /\ tm_mon (time alrm') = tm_mon (time alrm)
    /\ tm_year (time alrm')
       = tm_year (time alrm) - century_of (tm_year (time alrm))
         + century_of (tm_year (current_time w))
    /\ enabled alrm' = Z.land (enabled alrm) 1
    /\ pending alrm' = FIELD_GET MAX31335_STATUS1_A1F (reg_val w MAX31335_STATUS1).
Proof.
  intros Hh (Hs & Hm & Hhr & Hd & Hmo & Hy).
  assert (Hh2 : healthy 2 w) by (intros i Hi; apply Hh; lia).
  rewrite (set_alarm_ok w alrm Hh2).
  set (w1 := mkWorld _ _ _ _).
  assert (Hh4 : healthy 4 w1).
  { intros i Hi. subst w1. cbn [fault ticks].
    replace (S (S (ticks w)) + i)%nat with (ticks w + (2 + i))%nat by lia.
    apply Hh. lia. }
  pose proof (read_alarm_run w1 out Hh4) as Hrun. cbv zeta in Hrun.
  assert (Hregs : read_block (regs w1) MAX31335_ALM1_SEC 6
                  = map (fun v => u8 (u8 v)) (max31335_alarm_regs alrm)).
  { subst w1. cbn [regs].
    rewrite <- (read_write_block (max31335_alarm_regs alrm) (regs w) MAX31335_ALM1_SEC).
    apply read_block_ext. intros r Hr. unfold upd.
    destruct (r =? MAX31335_INT_EN) eqn:E; [|reflexivity].
    apply Z.eqb_eq in E. subst r.
    unfold MAX31335_INT_EN, MAX31335_ALM1_SEC in Hr. lia. }
  assert (Hnow : current_time w1 = current_time w).
  { reflexivity. }
  assert (Hen : reg_val w1 MAX31335_INT_EN
                = Z.lor (Z.land (reg_val w MAX31335_INT_EN) 0xFE)
                        (Z.land (enabled alrm) 1)).
  { subst w1. unfold reg_val at 1. cbn [regs]. unfold upd. rewrite Z.eqb_refl.
    destruct (update_bit0 (reg_val w MAX31335_INT_EN) (u8_range _)
                          (Z.land (enabled alrm) 1) (land_1_range _)) as [Hu _].
    rewrite <- Hu. unfold u8. now rewrite Z.mod_mod by (simpl; lia). }
  assert (Hst : reg_val w1 MAX31335_STATUS1 = reg_val w MAX31335_STATUS1).
  { subst w1. unfold reg_val. cbn [regs]. unfold upd.
    change (MAX31335_STATUS1 =? MAX31335_INT_EN) with false. cbv iota.
    now rewrite write_block_below by (vm_compute; reflexivity). }
  rewrite Hregs, Hnow, Hen, Hst in Hrun.
  eexists; eexists; eexists. split; [reflexivity|]. split; [exact Hrun|].
  unfold max31335_alarm_regs. cbn [map el nth time enabled pending tm_sec tm_min
    tm_hour tm_mday tm_mon tm_year].
  rewrite !sec_codec, alarm_hour_codec, mday_codec, mon_codec_lo by lia.
  repeat (split; [reflexivity|]).
  split.
  - pose proof (alarm_year_codec (tm_year (time alrm)) Hy) as Hyc.
    unfold century_of in *.
    destruct (200 <=? tm_year (current_time w));
      destruct (200 <=? tm_year (time alrm)) eqn:E;
      [apply Z.leb_le in E | apply Z.leb_gt in E | apply Z.leb_le in E | apply Z.leb_gt in E];
      rewrite Hyc;
      repeat match goal with
             | |- context [s32 (?a - ?b)] => rewrite (s32_small (a - b)) by lia
             | |- context [s32 (?a - ?b + ?c)] => rewrite (s32_small (a - b + c)) by lia
             end; lia.
  - destruct (update_bit0 (reg_val w MAX31335_INT_EN) (u8_range _)
                          (Z.land (enabled alrm) 1) (land_1_range _)) as [_ Hg].
    change MAX31335_INT_EN1_A1IE with 1. rewrite Hg.
    split.
    + apply u8_small. pose proof (land_1_range (enabled alrm)). lia.
    + apply u8_small.
      assert (H : 0 <= FIELD_GET MAX31335_STATUS1_A1F (reg_val w MAX31335_STATUS1) <= 1).
      { pose proof (u8_range (regs w MAX31335_STATUS1)) as Hb. unfold reg_val.
        set (b := u8 (regs w MAX31335_STATUS1)) in *. clearbody b.
        assert (Hc : ((0 <=? FIELD_GET MAX31335_STATUS1_A1F b)
                      && (FIELD_GET MAX31335_STATUS1_A1F b <=? 1)) = true).
        { apply (range_all_spec
                   (fun b => (0 <=? FIELD_GET MAX31335_STATUS1_A1F b)
                             && (FIELD_GET MAX31335_STATUS1_A1F b <=? 1)) 256 0);
            [vm_compute; reflexivity | lia]. }
        apply andb_true_iff in Hc as [Hc1 Hc2].
        apply Z.leb_le in Hc1. apply Z.leb_le in Hc2. lia. }
      lia.
Qed.

Lemma set_alarm_read_alarm_roundtrip_witness :
  exists w1 w2 alrm',
    max31335_set_alarm alarm_2107 world_2099 = (0, w1)
    /\ max31335_read_alarm alarm_2107 w1 = (0, alrm', w2)
    /\ tm_sec (time alrm') = 7
    /\ tm_min (time alrm') = 6
    /\ tm_hour (time alrm') = 5
    /\ tm_mday (time alrm') = 4
    /\ tm_mon (time alrm') = 2
    /\ tm_year (time alrm') = 207 - 100 + 0
    /\ enabled alrm' = 1
    /\ pending alrm' = 0.
Proof.
  apply (set_alarm_read_alarm_roundtrip world_2099 alarm_2107 alarm_2107).
  - intros i Hi. reflexivity.
  - unfold alarm_in_range. simpl. lia.
Defined.

(** X2. When the bulk write succeeds and the update of the interrupt enable
    register fails, [max31335_set_alarm] returns that error with the alarm
    registers already holding the new time and the enable bit as it was. *)
Theorem set_alarm_half_configured (w : world) (alrm : rtc_wkalrm) :
  fault w (ticks w) = 0 ->
  fault w (S (ticks w)) <> 0 ->
  exists w',
    max31335_set_alarm alrm w = (fault w (S (ticks w)), w')
    /\ read_block (regs w') MAX31335_ALM1_SEC 6
       = map (fun v => u8 (u8 v)) (max31335_alarm_regs alrm)
    /\ reg_val w' MAX31335_INT_EN = reg_val w MAX31335_INT_EN.
Proof.
  intros H0 H1. unfold max31335_set_alarm, Return_then_dead, Bind.
  rewrite regmap_bulk_write_ok by exact H0. cbv beta iota.
  cbn [negb Z.eqb].
  rewrite regmap_update_bits_fail by exact H1.
  eexists. split; [reflexivity|]. unfold after_call, reg_val. cbn [regs].
  split.
  - apply (read_write_block (max31335_alarm_regs alrm)).
  - now rewrite write_block_below by (vm_compute; reflexivity).
Qed.

Lemma set_alarm_half_configured_witness :
  exists w',
    max31335_set_alarm alarm_2107 world_second_call_fails = (-5, w')
    /\ read_block (regs w') MAX31335_ALM1_SEC 6
       = map (fun v => u8 (u8 v)) (max31335_alarm_regs alarm_2107)
    /\ reg_val w' MAX31335_INT_EN = reg_val world_second_call_fails MAX31335_INT_EN.
Proof.
  apply (set_alarm_half_configured world_second_call_fails alarm_2107).
  - reflexivity.
  - simpl. lia.
Defined.

Ltac alarm_year_goal w :=
  pose proof (bcd2bin_bound (reg_val w MAX31335_ALM1_YEAR));
  unfold reg_val in *; cbn [read_block el nth];
  change (MAX31335_ALM1_SEC + 1 + 1 + 1 + 1 + 1) with MAX31335_ALM1_YEAR;
  repeat match goal with
         | |- context [s32 (bcd2bin ?x + 100)] =>
             rewrite (s32_small (bcd2bin x + 100)) by lia
         | |- context [s32 (bcd2bin ?x + 100 + 100)] =>
             rewrite (s32_small (bcd2bin x + 100 + 100)) by lia
         end;
  lia.

(** X3. When the first read of [max31335_read_alarm] succeeds and a later
    one fails, the first failing call's error is returned; the registers are
    untouched and [enabled] and [pending] keep the caller's values, but the
    six time fields of the caller's structure are already overwritten with
    the decoded alarm registers (the year with the clock's century only if
    the time read itself succeeded); weekday, day of year and DST flag are
    left alone. *)
Theorem read_alarm_error_after_decode (w : world) (alrm : rtc_wkalrm) :
  fault w (ticks w) = 0 ->
  fault w (S (ticks w)) <> 0
  \/ fault w (S (S (ticks w))) <> 0
  \/ fault w (S (S (S (ticks w)))) <> 0 ->
  exists alrm' w',
    max31335_read_alarm alrm w
    = (if negb (fault w (S (ticks w)) =? 0) then fault w (S (ticks w))
       else if negb (fault w (S (S (ticks w))) =? 0)
            then fault w (S (S (ticks w)))
            else fault w (S (S (S (ticks w)))),
       alrm', w')
    /\ enabled alrm' = enabled alrm
    /\ pending alrm' = pending alrm
    /\ tm_sec (time alrm')
       = s32 (bcd2bin (Z.land (reg_val w MAX31335_ALM1_SEC) 0x7f))
    /\ tm_min (time alrm')
       = s32 (bcd2bin (Z.land (reg_val w MAX31335_ALM1_MIN) 0x7f))
    /\ tm_hour (time alrm')
       = s32 (bcd2bin (Z.land (reg_val w MAX31335_ALM1_HRS) 0x3f))
    /\ tm_mday (time alrm')
       = s32 (bcd2bin (Z.land (reg_val w MAX31335_ALM1_DAY_DATE) 0x3f))
    /\ tm_mon (time alrm')
       = s32 (bcd2bin (Z.land (reg_val w MAX31335_ALM1_MON) 0x1f) - 1)
    /\ tm_year (time alrm')
       = bcd2bin (reg_val w MAX31335_ALM1_YEAR) + 100
         + (if (fault w (S (ticks w)) =? 0)
               && (200 <=? tm_year (current_time w))
            then 100 else 0)
    /\ tm_wday (time alrm') = tm_wday (time alrm)
    /\ tm_yday (time alrm') = tm_yday (time alrm)
    /\ tm_isdst (time alrm') = tm_isdst (time alrm)
    /\ regs w' = regs w.
Proof.
  intros H0 Hf. unfold max31335_read_alarm, Bind.
  rewrite regmap_bulk_read_ok by exact H0. cbv beta iota. cbn [negb Z.eqb].
  destruct (Z.eq_dec (fault w (S (ticks w))) 0) as [H1|H1].
  - rewrite read_time_ok by exact H1. cbv beta iota. cbn [negb Z.eqb].
    fold (current_time (after_call (EvBulkRead MAX31335_ALM1_SEC 6) w)).
    change (current_time (after_call (EvBulkRead MAX31335_ALM1_SEC 6) w))
      with (current_time w).
    rewrite H1. cbn [negb Z.eqb andb].
    destruct (Z.eq_dec (fault w (S (S (ticks w)))) 0) as [H2|H2].
    + rewrite regmap_read_ok by exact H2. cbv beta iota. cbn [negb Z.eqb].
      assert (H3 : fault w (S (S (S (ticks w)))) <> 0)
        by (destruct Hf as [Hf|[Hf|Hf]]; [contradiction | contradiction | exact Hf]).
      rewrite regmap_read_fail by exact H3. cbv beta iota.
      unfold after_call. cbn [fault ticks].
      pose proof H3 as H3b. apply Z.eqb_neq in H3b. rewrite H3b. cbn [negb].
      unfold Ret. rewrite H2. cbn [negb Z.eqb].
      eexists; eexists. split; [reflexivity|].
      destruct alrm as [en pe [s mi h md mo y wd yd dst]].
      destruct (200 <=? tm_year (current_time w));
        cbn [set_time_of time enabled pending set_tm_sec set_tm_min set_tm_hour
             set_tm_mday set_tm_mon set_tm_year tm_sec tm_min tm_hour tm_mday
             tm_mon tm_year tm_wday tm_yday tm_isdst regs];
        repeat (split; [reflexivity|]);
        (split; [alarm_year_goal w | repeat split]).
    + rewrite regmap_read_fail by exact H2. cbv beta iota.
      unfold after_call. cbn [fault ticks].
      pose proof H2 as H2b. apply Z.eqb_neq in H2b. rewrite H2b. cbn [negb].
      unfold Ret.
      eexists; eexists. split; [reflexivity|].
      destruct alrm as [en pe [s mi h md mo y wd yd dst]].
      destruct (200 <=? tm_year (current_time w));
        cbn [set_time_of time enabled pending set_tm_sec set_tm_min set_tm_hour
             set_tm_mday set_tm_mon set_tm_year tm_sec tm_min tm_hour tm_mday
             tm_mon tm_year tm_wday tm_yday tm_isdst regs];
        repeat (split; [reflexivity|]);
        (split; [alarm_year_goal w | repeat split]).
  - unfold max31335_read_time, Bind.
    rewrite regmap_bulk_read_fail by exact H1. cbv beta iota.
    unfold after_call. cbn [fault ticks].
    pose proof H1 as H1b. apply Z.eqb_neq in H1b. rewrite H1b. cbn [negb andb].
    unfold Ret. cbv beta iota. rewrite H1b. cbn [negb fst].
    eexists; eexists. split; [reflexivity|].
    destruct alrm as [en pe [s mi h md mo y wd yd dst]].
    cbn [set_time_of time enabled pending set_tm_sec set_tm_min set_tm_hour
         set_tm_mday set_tm_mon set_tm_year tm_sec tm_min tm_hour tm_mday
         tm_mon tm_year tm_wday tm_yday tm_isdst regs].
    repeat (split; [reflexivity|]).
    split; [alarm_year_goal w | repeat split].
Qed.

Lemma read_alarm_error_after_decode_witness :
  exists alrm' w',
    max31335_read_alarm alarm_2107 world_second_call_fails = (-5, alrm', w')
    /\ enabled alrm' = 1
    /\ pending alrm' = 0
    /\ tm_sec (time alrm') = 0
    /\ tm_min (time alrm') = 0
    /\ tm_hour (time alrm') = 0
    /\ tm_mday (time alrm') = 0
    /\ tm_mon (time alrm') = -1
    /\ tm_year (time alrm') = 100
    /\ tm_wday (time alrm') = 0
    /\ tm_yday (time alrm') = 0
    /\ tm_isdst (time alrm') = 0
    /\ regs w' = regs world_second_call_fails.
Proof.
  apply (read_alarm_error_after_decode world_second_call_fails alarm_2107).
  - reflexivity.
  - left. simpl. lia.
Defined.

(** X4. On a healthy bus [max31335_alarm_irq_enable] sets the alarm
    interrupt enable bit to bit 0 of its argument (so 1 enables, 0 and 2
    disable), keeps the other seven bits of the interrupt enable register
    and changes no other register. *)
Theorem alarm_irq_enable_sets_bit0 (w : world) (en : Z) :
  fault w (ticks w) = 0 ->
  exists w',
    max31335_alarm_irq_enable en w = (0, w')
    /\ reg_val w' MAX31335_INT_EN
       = Z.lor (Z.land (reg_val w MAX31335_INT_EN) 0xFE) (Z.land en 1)
    /\ FIELD_GET MAX31335_INT_EN1_A1IE (reg_val w' MAX31335_INT_EN) = Z.land en 1
    /\ (forall r, r <> MAX31335_INT_EN -> regs w' r = regs w r).
Proof.
  unfold max31335_alarm_irq_enable. intros H.
  rewrite regmap_update_bits_ok by exact H.
  eexists. split; [reflexivity|].
  change MAX31335_INT_EN1_A1IE with 1.
  destruct (update_bit0 (reg_val w MAX31335_INT_EN) (u8_range _)
                        (Z.land en 1) (land_1_range _)) as [Hu Hg].
  match goal with
  | |- reg_val ?w1 _ = ?v /\ _ =>
      assert (Hreg : reg_val w1 MAX31335_INT_EN = v)
  end.
  { unfold reg_val at 1. cbn [regs]. unfold upd. rewrite Z.eqb_refl.
    rewrite Hu. rewrite <- Hu. unfold u8. now rewrite Z.mod_mod by (simpl; lia). }
  rewrite Hreg. split; [reflexivity|]. split; [exact Hg|].
  intros r Hr. cbn [regs]. unfold upd. apply Z.eqb_neq in Hr. now rewrite Hr.
Qed.

Lemma alarm_irq_enable_sets_bit0_witness :
  exists w',
    max31335_alarm_irq_enable 2 world_busy = (0, w')
    /\ reg_val w' MAX31335_INT_EN
       = Z.lor (Z.land (reg_val world_busy MAX31335_INT_EN) 0xFE) (Z.land 2 1)
    /\ FIELD_GET MAX31335_INT_EN1_A1IE (reg_val w' MAX31335_INT_EN) = 0
    /\ (forall r, r <> MAX31335_INT_EN -> regs w' r = regs world_busy r).
Proof.
  apply (alarm_irq_enable_sets_bit0 world_busy 2). reflexivity.
Defined.

(** ** Interrupt handler with the flag latched *)

(** X5. With the alarm flag latched and a healthy bus, the handler clears
    exactly that flag (the other seven status bits and all other registers
    keep their values), then reports one alarm interrupt to the RTC core,
    all between taking and releasing the lock, and returns [IRQ_HANDLED]. *)
Theorem handle_irq_alarm_pending (w : world) :
  healthy 2 w ->
  FIELD_GET MAX31335_STATUS1_A1F (reg_val w MAX31335_STATUS1) = 1 ->
  exists w',
    max31335_handle_irq w = (IRQ_HANDLED, w')
    /\ trace w' = trace w ++ [EvMutexLock;
                              EvRead MAX31335_STATUS1;
                              EvUpdateBits MAX31335_STATUS1 MAX31335_STATUS1_A1F 0;
                              EvRtcUpdateIrq 1 (Z.lor RTC_AF RTC_IRQF);
                              EvMutexUnlock]
    /\ reg_val w' MAX31335_STATUS1 = Z.land (reg_val w MAX31335_STATUS1) 0xFE
    /\ FIELD_GET MAX31335_STATUS1_A1F (reg_val w' MAX31335_STATUS1) = 0
    /\ (forall r, r <> MAX31335_STATUS1 -> regs w' r = regs w r).
Proof.
  intros Hh Hflag.
  assert (H0 : fault w (ticks w) = 0) by (eapply healthy_now; eassumption).
  assert (H1 : fault w (S (ticks w)) = 0).
  { specialize (Hh 1%nat). rewrite Nat.add_1_r in Hh. apply Hh. lia. }
  unfold max31335_handle_irq, Bind, mutex_lock, mutex_unlock, rtc_update_irq, log, Ret.
  rewrite regmap_read_ok by exact H0. cbv beta iota. cbn [negb Z.eqb].
  unfold reg_val in Hflag |- *. cbn [regs]. rewrite Hflag.
  change (negb (1 =? 0)) with true. cbv beta iota.
  rewrite regmap_update_bits_ok by exact H1. cbv beta iota. cbn [negb Z.eqb].
  unfold after_call, reg_val. cbn [regs fault ticks trace].
  destruct (field_bit0 (u8 (regs w MAX31335_STATUS1)) (u8_range _)) as (_ & Hclr & Hz).
  change MAX31335_STATUS1_A1F with 1.
  eexists. split; [reflexivity|]. cbn [trace regs].
  split; [now rewrite <- !app_assoc|].
  unfold upd at 1 2. rewrite Z.eqb_refl. rewrite Hclr.
  assert (Hu : u8 (Z.land (u8 (regs w MAX31335_STATUS1)) 254)
               = Z.land (u8 (regs w MAX31335_STATUS1)) 254).
  { rewrite <- Hclr. unfold u8. now rewrite Z.mod_mod by (simpl; lia). }
  rewrite Hu. split; [reflexivity|]. split; [exact Hz|].
  intros r Hr. unfold upd. apply Z.eqb_neq in Hr. now rewrite Hr.
Qed.

Lemma handle_irq_alarm_pending_witness :
  exists w',
    max31335_handle_irq world_busy = (IRQ_HANDLED, w')
    /\ trace w' = trace world_busy
                  ++ [EvMutexLock;
                      EvRead MAX31335_STATUS1;
                      EvUpdateBits MAX31335_STATUS1 MAX31335_STATUS1_A1F 0;
                      EvRtcUpdateIrq 1 (Z.lor RTC_AF RTC_IRQF);
                      EvMutexUnlock]
    /\ reg_val w' MAX31335_STATUS1 = Z.land (reg_val world_busy MAX31335_STATUS1) 0xFE
    /\ FIELD_GET MAX31335_STATUS1_A1F (reg_val w' MAX31335_STATUS1) = 0
    /\ (forall r, r <> MAX31335_STATUS1 -> regs w' r = regs world_busy r).
Proof.
  apply (handle_irq_alarm_pending world_busy).
  - intros i Hi. reflexivity.
  - reflexivity.
Defined.

(** X6. The handler reports an alarm to the RTC core exactly when the
    status read succeeded, the alarm flag was set and clearing it succeeded.
    In every other case no register changes. Its last action is always the
    release of the lock. *)
Theorem handle_irq_notifies_iff (w : world) :
  exists evs,
    trace (snd (max31335_handle_irq w)) = trace w ++ evs
    /\ (In (EvRtcUpdateIrq 1 (Z.lor RTC_AF RTC_IRQF)) evs
        <-> fault w (ticks w) = 0
            /\ FIELD_GET MAX31335_STATUS1_A1F (reg_val w MAX31335_STATUS1) = 1
            /\ fault w (S (ticks w)) = 0)
    /\ (~ In (EvRtcUpdateIrq 1 (Z.lor RTC_AF RTC_IRQF)) evs ->
        regs (snd (max31335_handle_irq w)) = regs w)
    /\ last evs EvMutexLock = EvMutexUnlock.
Proof.
  unfold max31335_handle_irq, Bind, mutex_lock, mutex_unlock, rtc_update_irq, log, Ret.
  destruct (field_bit0 (reg_val w MAX31335_STATUS1) (u8_range _)) as (Hbit & _ & _).
  change (FIELD_GET 1) with (FIELD_GET MAX31335_STATUS1_A1F) in Hbit.
  destruct (Z.eq_dec (fault w (ticks w)) 0) as [H0|H0].
  - rewrite regmap_read_ok by exact H0. cbv beta iota. cbn [negb Z.eqb].
    unfold reg_val in Hbit |- *. cbn [regs].
    destruct Hbit as [Hb|Hb]; rewrite Hb.
    + change (negb (0 =? 0)) with false. cbv beta iota.
      unfold after_call. cbn [snd trace regs].
      exists [EvMutexLock; EvRead MAX31335_STATUS1; EvMutexUnlock].
      split; [now rewrite <- !app_assoc|]. split; [|split; reflexivity].
      split.
      * intros [H|[H|[H|[]]]]; discriminate H.
      * intros (_ & H & _). discriminate H.
    + change (negb (1 =? 0)) with true. cbv beta iota.
      destruct (Z.eq_dec (fault w (S (ticks w))) 0) as [H1|H1].
      * rewrite regmap_update_bits_ok by exact H1. cbv beta iota. cbn [negb Z.eqb].
        unfold after_call. cbn [snd trace regs].
        exists [EvMutexLock; EvRead MAX31335_STATUS1;
                EvUpdateBits MAX31335_STATUS1 MAX31335_STATUS1_A1F 0;
                EvRtcUpdateIrq 1 (Z.lor RTC_AF RTC_IRQF); EvMutexUnlock].
        split; [now rewrite <- !app_assoc|]. split; [|split; [|reflexivity]].
        -- split; [intros _; auto | intros _; simpl; auto].
        -- intros Hn. exfalso. apply Hn. simpl. auto.
      * rewrite regmap_update_bits_fail by exact H1. cbv beta iota.
        unfold after_call. cbn [fault ticks].
        pose proof H1 as H1b. apply Z.eqb_neq in H1b. rewrite H1b.
        cbn [negb snd trace regs].
        exists [EvMutexLock; EvRead MAX31335_STATUS1;
                EvUpdateBits MAX31335_STATUS1 MAX31335_STATUS1_A1F 0; EvMutexUnlock].
        split; [now rewrite <- !app_assoc|]. split; [|split; reflexivity].
        split.
        -- intros [H|[H|[H|[H|[]]]]]; discriminate H.
        -- intros (_ & _ & H). contradiction.
  - rewrite regmap_read_fail by exact H0. cbv beta iota.
    unfold after_call. cbn [fault ticks].
    pose proof H0 as H0b. apply Z.eqb_neq in H0b. rewrite H0b.
    cbn [negb snd trace regs].
    exists [EvMutexLock; EvRead MAX31335_STATUS1; EvMutexUnlock].
    split; [now rewrite <- !app_assoc|]. split; [|split; reflexivity].
    split.
    + intros [H|[H|[H|[]]]]; discriminate H.
    + intros (H & _). contradiction.
Qed.

(** ** Time registers *)

(** X7. [max31335_set_time] returns the result of its one bulk write. It
    changes no register outside the seven time registers, and none at all
    when the write fails. *)
Theorem set_time_frame (w : world) (tm : rtc_time) (r : Z) :
  r < MAX31335_SECONDS \/ MAX31335_SECONDS + 7 <= r ->
  fst (max31335_set_time tm w) = fault w (ticks w)
  /\ regs (snd (max31335_set_time tm w)) r = regs w r
  /\ regs (snd (max31335_set_time tm w))
     = (if fault w (ticks w) =? 0
        then write_block (regs w) MAX31335_SECONDS (max31335_time_regs tm)
        else regs w)
  /\ trace (snd (max31335_set_time tm w))
     = trace w ++ [EvBulkWrite MAX31335_SECONDS (max31335_time_regs tm)].
Proof.
  intros Hr. unfold max31335_set_time.
  destruct (Z.eq_dec (fault w (ticks w)) 0) as [H|H].
  - rewrite regmap_bulk_write_ok by exact H. rewrite H. cbn [fst snd regs trace Z.eqb].
    split; [reflexivity|]. split; [|split; reflexivity].
    destruct Hr as [Hr|Hr].
    + now apply write_block_below.
    + apply write_block_above. exact Hr.
  - rewrite regmap_bulk_write_fail by exact H.
    pose proof H as Hb. apply Z.eqb_neq in Hb. rewrite Hb.
    repeat split.
Qed.

Lemma set_time_frame_witness :
  fst (max31335_set_time tm_2199_end world_busy) = fault world_busy (ticks world_busy)
  /\ regs (snd (max31335_set_time tm_2199_end world_busy)) MAX31335_ALM1_SEC
     = regs world_busy MAX31335_ALM1_SEC
  /\ regs (snd (max31335_set_time tm_2199_end world_busy))
     = (if fault world_busy (ticks world_busy) =? 0
        then write_block (regs world_busy) MAX31335_SECONDS
                         (max31335_time_regs tm_2199_end)
        else regs world_busy)
  /\ trace (snd (max31335_set_time tm_2199_end world_busy))
     = trace world_busy
       ++ [EvBulkWrite MAX31335_SECONDS (max31335_time_regs tm_2199_end)].
Proof.
  apply (set_time_frame world_busy tm_2199_end MAX31335_ALM1_SEC).
  right. vm_compute. discriminate.
Defined.

Lemma get_hour_ignores_bit7 (h : Z) :
  max31335_get_hour (Z.lor h 0x80) = max31335_get_hour h.
Proof.
  unfold max31335_get_hour, FIELD_GET.
  rewrite !(land_lor_disjoint h 0x80) by reflexivity. reflexivity.
Qed.

(** X8. The decoding done by [max31335_read_time] looks only at the field
    bits: bit 7 of the seconds, minutes and hours bytes, the upper five bits
    of the weekday byte, the upper two bits of the date byte and bits 5 and 6
    of the month byte have no influence on the result. *)
Theorem read_time_ignores_reserved_bits (d0 d1 d2 d3 d4 d5 d6 : Z) (out : rtc_time) :
  max31335_time_of_regs
    [Z.lor d0 0x80; Z.lor d1 0x80; Z.lor d2 0x80; Z.lor d3 0xF8;
     Z.lor d4 0xC0; Z.lor d5 0x60; d6] out
  = max31335_time_of_regs [d0; d1; d2; d3; d4; d5; d6] out.
Proof.
  unfold max31335_time_of_regs. cbn [el nth].
  rewrite get_hour_ignores_bit7. unfold FIELD_GET.
  rewrite !land_lor_disjoint by reflexivity. reflexivity.
Qed.

Lemma bcd_byte_59 : forall v, 0 <= v <= 59 ->
  Z.land (bin2bcd v) 0x0f <= 9 /\ Z.land (bin2bcd v) 0x80 = 0
  /\ 0 <= bin2bcd v <= 255.
Proof.
  intros v Hv.
  set (P := fun v => (Z.land (bin2bcd v) 0x0f <=? 9) && (Z.land (bin2bcd v) 0x80 =? 0)
                     && (0 <=? bin2bcd v) && (bin2bcd v <=? 255)).
  assert (H : P v = true)
    by (apply (range_all_spec P 60 0); [vm_compute; reflexivity | lia]).
  unfold P in H. repeat (apply andb_true_iff in H; destruct H as [H ?]).
  apply Z.leb_le in H. apply Z.eqb_eq in H2. apply Z.leb_le in H1. apply Z.leb_le in H0.
  auto.
Qed.

Lemma bcd_byte_hour : forall v, 0 <= v <= 23 ->
  Z.land (bin2bcd v) 0x0f <= 9 /\ Z.land (bin2bcd v) 0xC0 = 0.
Proof.
  intros v Hv.
  set (P := fun v => (Z.land (bin2bcd v) 0x0f <=? 9) && (Z.land (bin2bcd v) 0xC0 =? 0)).
  assert (H : P v = true)
    by (apply (range_all_spec P 24 0); [vm_compute; reflexivity | lia]).
  unfold P in H. apply andb_true_iff in H as [H1 H2].
  apply Z.leb_le in H1. apply Z.eqb_eq in H2. auto.
Qed.

Lemma bcd_byte_wday : forall v, 0 <= v <= 6 ->
  1 <= bin2bcd (s32 (v + 1)) <= 7 /\ Z.land (bin2bcd (s32 (v + 1))) 0xF8 = 0.
Proof.
  intros v Hv.
  set (P := fun v => (1 <=? bin2bcd (s32 (v + 1))) && (bin2bcd (s32 (v + 1)) <=? 7)
                     && (Z.land (bin2bcd (s32 (v + 1))) 0xF8 =? 0)).
  assert (H : P v = true)
    by (apply (range_all_spec P 7 0); [vm_compute; reflexivity | lia]).
  unfold P in H. repeat (apply andb_true_iff in H; destruct H as [H ?]).
  apply Z.leb_le in H. apply Z.leb_le in H1. apply Z.eqb_eq in H0. auto.
Qed.

Lemma bcd_byte_mday : forall v, 1 <= v <= 31 ->
  Z.land (bin2bcd v) 0x0f <= 9 /\ Z.land (bin2bcd v) 0xC0 = 0.
Proof.
  intros v Hv.
  set (P := fun v => (Z.land (bin2bcd v) 0x0f <=? 9) && (Z.land (bin2bcd v) 0xC0 =? 0)).
  assert (H : P v = true)
    by (apply (range_all_spec P 31 1); [vm_compute; reflexivity | lia]).
  unfold P in H. apply andb_true_iff in H as [H1 H2].
  apply Z.leb_le in H1. apply Z.eqb_eq in H2. auto.
Qed.

Lemma bcd_byte_mon : forall v, 0 <= v <= 11 ->
  let lo := bin2bcd (s32 (v + 1)) in
  let hi := u8 (Z.lor lo (FIELD_PREP MAX31335_MONTH_CENTURY 1)) in
  Z.land lo 0x0f <= 9 /\ Z.land lo 0x60 = 0
  /\ Z.land hi 0x0f <= 9 /\ Z.land hi 0x60 = 0
  /\ FIELD_GET MAX31335_MONTH_CENTURY lo = 0
  /\ FIELD_GET MAX31335_MONTH_CENTURY hi = 1.
Proof.
  intros v Hv.
  set (P := fun v =>
     let lo := bin2bcd (s32 (v + 1)) in
     let hi := u8 (Z.lor lo (FIELD_PREP MAX31335_MONTH_CENTURY 1)) in
     (Z.land lo 0x0f <=? 9) && (Z.land lo 0x60 =? 0)
     && (Z.land hi 0x0f <=? 9) && (Z.land hi 0x60 =? 0)
     && (FIELD_GET MAX31335_MONTH_CENTURY lo =? 0)
     && (FIELD_GET MAX31335_MONTH_CENTURY hi =? 1)).
  assert (H : P v = true)
    by (apply (range_all_spec P 12 0); [vm_compute; reflexivity | lia]).
  unfold P in H. cbv zeta in H |- *.
  repeat (apply andb_true_iff in H; destruct H as [H ?]).
  repeat match goal with
         | H : (_ <=? _) = true |- _ => apply Z.leb_le in H
         | H : (_ =? _) = true |- _ => apply Z.eqb_eq in H
         end.
  auto 10.
Qed.

Lemma bcd_byte_year : forall y, 100 <= y <= 299 ->
  Z.land (bin2bcd (Z.rem y 100)) 0x0f <= 9
  /\ Z.shiftr (bin2bcd (Z.rem y 100)) 4 <= 9.
Proof.
  intros v Hv.
  set (P := fun v => (Z.land (bin2bcd (Z.rem v 100)) 0x0f <=? 9)
                     && (Z.shiftr (bin2bcd (Z.rem v 100)) 4 <=? 9)).
  assert (H : P v = true)
    by (apply (range_all_spec P 200 100); [vm_compute; reflexivity | lia]).
  unfold P in H. apply andb_true_iff in H as [H1 H2].
  apply Z.leb_le in H1. apply Z.leb_le in H2. auto.
Qed.

(** X9. For a time of the supported range, the bytes [max31335_set_time]
    stores are well-formed: every low nibble is a decimal digit, no reserved
    bit is set (so the hours byte is in 24-hour format), the century flag is
    set exactly for the years from 2100 on, and the year byte is a two-digit
    BCD number. *)
Theorem set_time_registers_well_formed (tm : rtc_time) :
  tm_in_range tm ->
  Forall (fun b => Z.land b 0x0f <= 9) (max31335_time_regs tm)
  /\ Z.land (el (max31335_time_regs tm) 0) 0x80 = 0
  /\ Z.land (el (max31335_time_regs tm) 1) 0x80 = 0
  /\ Z.land (el (max31335_time_regs tm) 2) 0xC0 = 0
  /\ Z.land (el (max31335_time_regs tm) 3) 0xF8 = 0
  /\ Z.land (el (max31335_time_regs tm) 4) 0xC0 = 0
  /\ Z.land (el (max31335_time_regs tm) 5) 0x60 = 0
  /\ FIELD_GET MAX31335_MONTH_CENTURY (el (max31335_time_regs tm) 5)
     = (if 200 <=? tm_year tm then 1 else 0)
  /\ Z.shiftr (el (max31335_time_regs tm) 6) 4 <= 9.
Proof.
  intros (Hs & Hm & Hh & Hw & Hd & Hmo & Hy).
  destruct (bcd_byte_59 _ Hs) as (S1 & S2 & _).
  destruct (bcd_byte_59 _ Hm) as (M1 & M2 & _).
  destruct (bcd_byte_hour _ Hh) as (H1 & H2).
  destruct (bcd_byte_wday _ Hw) as (W1 & W2).
  destruct (bcd_byte_mday _ Hd) as (D1 & D2).
  destruct (bcd_byte_mon _ Hmo) as (L1 & L2 & U1 & U2 & C0 & C1).
  destruct (bcd_byte_year _ Hy) as (Y1 & Y2).
  assert (W3 : Z.land (bin2bcd (s32 (tm_wday tm + 1))) 0x0f <= 9).
  { assert (Hc : forall b, 1 <= b <= 7 -> Z.land b 15 <= 9).
    { intros b Hb. apply Z.leb_le. revert b Hb.
      intros b Hb. apply (range_all_spec (fun b => Z.land b 15 <=? 9) 7 1);
        [vm_compute; reflexivity | lia]. }
    now apply Hc. }
  unfold max31335_time_regs. cbv zeta. cbn [el nth].
  destruct (200 <=? tm_year tm);
    (split; [repeat constructor; assumption|]); repeat split; assumption.
Qed.

Lemma set_time_registers_well_formed_witness :
  Forall (fun b => Z.land b 0x0f <= 9) (max31335_time_regs tm_2199_end)
  /\ Z.land (el (max31335_time_regs tm_2199_end) 0) 0x80 = 0
  /\ Z.land (el (max31335_time_regs tm_2199_end) 1) 0x80 = 0
  /\ Z.land (el (max31335_time_regs tm_2199_end) 2) 0xC0 = 0
  /\ Z.land (el (max31335_time_regs tm_2199_end) 3) 0xF8 = 0
  /\ Z.land (el (max31335_time_regs tm_2199_end) 4) 0xC0 = 0
  /\ Z.land (el (max31335_time_regs tm_2199_end) 5) 0x60 = 0
  /\ FIELD_GET MAX31335_MONTH_CENTURY (el (max31335_time_regs tm_2199_end) 5) = 1
  /\ Z.shiftr (el (max31335_time_regs tm_2199_end) 6) 4 <= 9.
Proof.
  apply (set_time_registers_well_formed tm_2199_end).
  unfold tm_in_range. simpl. lia.
Defined.

(** X10. In 12-hour format the decoder covers the whole day: BCD 1 to 12
    with AM gives 1 to 11 and, for 12, 0; BCD 1 to 12 with PM gives 13 to 23
    and, for 12, 12. *)
Theorem get_hour_12h_table (h : Z) :
  1 <= h <= 12 ->
  max31335_get_hour (Z.lor MAX31335_HRS_F_12_24 (bin2bcd h)) = h mod 12
  /\ max31335_get_hour
       (Z.lor (Z.lor MAX31335_HRS_F_12_24 MAX31335_HRS_F_AM_PM) (bin2bcd h))
     = h mod 12 + 12.
Proof.
  intros Hh. split; revert h Hh; by_range 1 12%nat.
Qed.

Lemma get_hour_12h_table_witness :
  max31335_get_hour (Z.lor MAX31335_HRS_F_12_24 (bin2bcd 12)) = 0
  /\ max31335_get_hour
       (Z.lor (Z.lor MAX31335_HRS_F_12_24 MAX31335_HRS_F_AM_PM) (bin2bcd 12))
     = 12.
Proof.
  apply (get_hour_12h_table 12). lia.
Defined.

(** ** Trickle charger, supported values *)

(** X11. For a resistor value of the table, on a healthy bus, the setup
    writes one byte to the trickle register: the enable bit plus, in the
    three-bit field, the table index plus 1 without the diode and plus 4
    with it, a value from 1 to 6. *)
Theorem trickle_charger_supported (w : world) (ohms : Z) (diode clk : bool) :
  In ohms max31335_trickle_resistors ->
  fault w (ticks w) = 0 ->
  let i := trickle_lookup ohms max31335_trickle_resistors 0 in
  let field := if diode then i + 4 else i + 1 in
  let byte := Z.lor (FIELD_PREP MAX31335_TRICKLE field) MAX31335_EN_TRICKLE in
  nth_error max31335_trickle_resistors (Z.to_nat i) = Some ohms
  /\ 1 <= field <= 6
  /\ FIELD_GET MAX31335_TRICKLE byte = field
  /\ FIELD_GET MAX31335_EN_TRICKLE byte = 1
  /\ max31335_trickle_charger_setup (mkDevice (Some ohms) diode clk) w
     = (0, mkWorld (upd (regs w) MAX31335_TRICKLE_REG byte)
                   (fault w) (S (ticks w))
                   (trace w ++ [EvWrite MAX31335_TRICKLE_REG byte])).
Proof.
  intros Hin H. unfold max31335_trickle_charger_setup.
  cbn [trickle_resistor_ohms trickle_diode_enable].
  destruct Hin as [<-|[<-|[<-|[]]]]; destruct diode; cbv zeta;
    (split; [reflexivity|]); (split; [vm_compute; split; discriminate|]);
    (split; [reflexivity|]); (split; [reflexivity|]);
    match goal with
    | |- context [if ?c then _ else _] =>
        let b := eval vm_compute in c in change c with b
    end; cbv iota;
    rewrite regmap_write_ok by exact H; reflexivity.
Qed.

Lemma trickle_charger_supported_witness :
  nth_error max31335_trickle_resistors
            (Z.to_nat (trickle_lookup 11000 max31335_trickle_resistors 0))
  = Some 11000
  /\ 1 <= 3 <= 6
  /\ FIELD_GET MAX31335_TRICKLE
               (Z.lor (FIELD_PREP MAX31335_TRICKLE 3) MAX31335_EN_TRICKLE) = 3
  /\ FIELD_GET MAX31335_EN_TRICKLE
               (Z.lor (FIELD_PREP MAX31335_TRICKLE 3) MAX31335_EN_TRICKLE) = 1
  /\ max31335_trickle_charger_setup (mkDevice (Some 11000) false false) world_idle
     = (0, mkWorld (upd (regs world_idle) MAX31335_TRICKLE_REG 0x07)
                   (fault world_idle) 1 [EvWrite MAX31335_TRICKLE_REG 0x07]).
Proof.
  apply (trickle_charger_supported world_idle 11000 false false).
  - simpl. auto.
  - reflexivity.
Defined.

(** X12. The trickle register tells the settings apart: if
    [max31335_trickle_charger_setup], run from the same state on a healthy
    bus for two supported settings, leaves the same value in the trickle
    register, the two settings have the same resistor and the same diode
    choice. *)
Theorem trickle_field_injective (w : world) (o1 o2 : Z) (d1 d2 c1 c2 : bool) :
  In o1 max31335_trickle_resistors ->
  In o2 max31335_trickle_resistors ->
  fault w (ticks w) = 0 ->
  reg_val (snd (max31335_trickle_charger_setup (mkDevice (Some o1) d1 c1) w))
          MAX31335_TRICKLE_REG
  = reg_val (snd (max31335_trickle_charger_setup (mkDevice (Some o2) d2 c2) w))
            MAX31335_TRICKLE_REG ->
  o1 = o2 /\ d1 = d2.
Proof.
  intros H1 H2 Hok.
  unfold max31335_trickle_charger_setup.
  cbn [trickle_resistor_ohms trickle_diode_enable].
  destruct H1 as [<-|[<-|[<-|[]]]]; destruct H2 as [<-|[<-|[<-|[]]]];
    destruct d1, d2; cbv zeta;
    repeat match goal with
           | |- context [if ?c then _ else _] =>
               let b := eval vm_compute in c in change c with b; cbv iota
           end;
    rewrite !regmap_write_ok by exact Hok;
    cbn [snd]; unfold reg_val; cbn [regs]; unfold upd; rewrite !Z.eqb_refl;
    vm_compute; intros H; try discriminate H; split; reflexivity.
Qed.

Lemma trickle_field_injective_witness : 6000 = 6000 /\ true = true.
Proof.
  apply (trickle_field_injective world_idle 6000 6000 true true false false).
  - simpl. auto.
  - simpl. auto.
  - reflexivity.
  - reflexivity.
Defined.

(** ** Probe outcome *)

Lemma probe_outcome_aux (pf : platform) (client : i2c_client) (w : world) :
  forall p, fst (max31335_probe pf client w) = p ->
  (probe_ret p = 0
   <-> devm_kzalloc_ok pf = true
       /\ devm_regmap_init_i2c_err pf = 0
       /\ 0 <= fault w (ticks w)
       /\ devm_rtc_allocate_device_err pf = 0
       /\ devm_rtc_register_device_ret pf = 0
       /\ max31335_clkout_register pf (dev client) = 0)
  /\ (probe_ret p = 0 ->
      exists rtc,
        probe_rtc p = Some rtc
        /\ feature_alarm rtc
           = negb (probe_irq p =? 0)
        /\ probe_irq p
           = (if (0 <? irq client) && negb (devm_request_threaded_irq_ret pf =? 0)
              then 0 else irq client)).
Proof.
  intros p. unfold max31335_probe.
  destruct (devm_kzalloc_ok pf); cbn [negb].
  2:{ probe_leaf. split; [split|]; [discriminate | intros (H & _); discriminate H | discriminate]. }
  destruct (devm_regmap_init_i2c_err pf =? 0) eqn:Ei; cbn [negb].
  2:{ probe_leaf. apply Z.eqb_neq in Ei.
      split; [split|]; [contradiction | intros (_ & H & _); contradiction | contradiction]. }
  apply Z.eqb_eq in Ei.
  unfold Bind at 1.
  assert (Hret : fst (fst (regmap_read MAX31335_STATUS1 w)) = fault w (ticks w)).
  { unfold regmap_read, Bind, regmap_call.
    destruct (fault w (ticks w) =? 0) eqn:E; cbn [negb]; [|reflexivity].
    apply Z.eqb_eq in E. now rewrite E. }
  destruct (regmap_read MAX31335_STATUS1 w) as [[ret status] w1].
  cbn [fst] in Hret. subst ret. cbv beta iota.
  destruct (fault w (ticks w) <? 0) eqn:Er.
  { probe_leaf. apply Z.ltb_lt in Er.
    split; [split|]; [lia | intros (_ & _ & H & _); lia | lia]. }
  apply Z.ltb_ge in Er.
  destruct (devm_rtc_allocate_device_err pf =? 0) eqn:Ea; cbn [negb].
  2:{ probe_leaf. apply Z.eqb_neq in Ea.
      split; [split|]; [contradiction | intros (_ & _ & _ & H & _); contradiction | contradiction]. }
  apply Z.eqb_eq in Ea.
  destruct (devm_rtc_register_device_ret pf =? 0) eqn:Eg; cbn [negb].
  2:{ probe_leaf. apply Z.eqb_neq in Eg.
      split; [split|]; [contradiction | intros (_ & _ & _ & _ & H & _); contradiction | contradiction]. }
  apply Z.eqb_eq in Eg.
  destruct (max31335_clkout_register pf (dev client) =? 0) eqn:Ec; cbn [negb].
  2:{ probe_leaf. apply Z.eqb_neq in Ec.
      split; [split|]; [contradiction | intros (_ & _ & _ & _ & _ & H); contradiction | contradiction]. }
  apply Z.eqb_eq in Ec.
  unfold Bind, dev_warn, log, Ret.
  destruct (0 <? irq client) eqn:Eq; cbn [andb negb].
  - destruct (devm_request_threaded_irq_ret pf =? 0) eqn:Et; cbn [negb].
    + destruct (max31335_trickle_charger_setup (dev client) w1) as [r w3].
      cbn [fst]. intros <-. cbn [probe_ret probe_rtc probe_irq].
      split; [split; [intros _; auto 10 | reflexivity]|].
      intros _. eexists. split; [reflexivity|].
      apply Z.ltb_lt in Eq.
      destruct (irq client =? 0) eqn:E0; [apply Z.eqb_eq in E0; lia|].
      split; reflexivity.
    + match goal with
      | |- context [max31335_trickle_charger_setup ?d ?ww] =>
          destruct (max31335_trickle_charger_setup d ww) as [r w3]
      end.
      cbn [fst]. intros <-. cbn [probe_ret probe_rtc probe_irq].
      split; [split; [intros _; auto 10 | reflexivity]|].
      intros _. eexists. split; [reflexivity|]. split; reflexivity.
  - destruct (max31335_trickle_charger_setup (dev client) w1) as [r w3].
    cbn [fst]. intros <-. cbn [probe_ret probe_rtc probe_irq].
    split; [split; [intros _; auto 10 | reflexivity]|].
    intros _. eexists. split; [reflexivity|].
    destruct (irq client =? 0); split; reflexivity.
Qed.

(** X13. [max31335_probe] returns 0 exactly when the allocation, the
    regmap, a non-negative result of the status read, the RTC device, its
    registration and the clock output registration all succeed. Neither a
    failing IRQ request nor a failing trickle charger setup makes it fail. *)
Theorem probe_succeeds_iff (pf : platform) (client : i2c_client) (w : world) :
  probe_ret (fst (max31335_probe pf client w)) = 0
  <-> devm_kzalloc_ok pf = true
      /\ devm_regmap_init_i2c_err pf = 0
      /\ 0 <= fault w (ticks w)
      /\ devm_rtc_allocate_device_err pf = 0
      /\ devm_rtc_register_device_ret pf = 0
      /\ max31335_clkout_register pf (dev client) = 0.
Proof.
  exact (proj1 (probe_outcome_aux pf client w _ eq_refl)).
Qed.

(** X14. After a successful probe the alarm feature stays advertised
    exactly when [client->irq] is non-zero on exit, and [client->irq] is set
    to 0 when an interrupt line was given and could not be requested. *)
Theorem probe_alarm_feature (pf : platform) (client : i2c_client) (w : world) :
  probe_ret (fst (max31335_probe pf client w)) = 0 ->
  exists rtc,
    probe_rtc (fst (max31335_probe pf client w)) = Some rtc
    /\ feature_alarm rtc
       = negb (probe_irq (fst (max31335_probe pf client w)) =? 0)
    /\ probe_irq (fst (max31335_probe pf client w))
       = (if (0 <? irq client) && negb (devm_request_threaded_irq_ret pf =? 0)
          then 0 else irq client).
Proof.
  exact (proj2 (probe_outcome_aux pf client w _ eq_refl)).
Qed.

Lemma probe_alarm_feature_witness :
  exists rtc,
    probe_rtc (fst (max31335_probe platform_no_irq client_example world_idle))
    = Some rtc
    /\ feature_alarm rtc
       = negb (probe_irq (fst (max31335_probe platform_no_irq client_example
                                              world_idle)) =? 0)
    /\ probe_irq (fst (max31335_probe platform_no_irq client_example world_idle))
       = (if (0 <? irq client_example)
             && negb (devm_request_threaded_irq_ret platform_no_irq =? 0)
          then 0 else irq client_example).
Proof.
  apply (probe_alarm_feature platform_no_irq client_example world_idle).
  reflexivity.
Defined.

(** ** Clock output *)

Lemma find_closest_clkout (rate : Z) :
  find_closest rate max31335_clkout_freq
  = if rate <=? 33 then 0
    else if rate <=? 544 then 1
    else if rate <=? 16896 then 2
    else 3.
Proof. reflexivity. Qed.

Lemma find_closest_clkout_range (rate : Z) :
  0 <= find_closest rate max31335_clkout_freq <= 3.
Proof.
  rewrite find_closest_clkout.
  destruct (rate <=? 33); [lia|]. destruct (rate <=? 544); [lia|].
  destruct (rate <=? 16896); lia.
Qed.

Lemma recalc_rate_ok (w : world) (parent : Z) :
  fault w (ticks w) = 0 ->
  max31335_clkout_recalc_rate parent w
  = (el max31335_clkout_freq (Z.to_nat (Z.land (reg_val w MAX31335_RTC_CONFIG2) 3)),
     after_call (EvRead MAX31335_RTC_CONFIG2) w).
Proof.
  intros H. unfold max31335_clkout_recalc_rate, Bind.
  rewrite regmap_read_ok by exact H. reflexivity.
Qed.

Lemma is_enabled_ok (w : world) :
  fault w (ticks w) = 0 ->
  max31335_clkout_is_enabled w
  = (if negb (Z.land (reg_val w MAX31335_RTC_CONFIG2) MAX31335_ENCLKO =? 0)
     then 1 else 0,
     after_call (EvRead MAX31335_RTC_CONFIG2) w).
Proof.
  intros H. unfold max31335_clkout_is_enabled, Bind.
  rewrite regmap_read_ok by exact H. reflexivity.
Qed.

(** X15. [max31335_clkout_round_rate] always returns one of the four table
    frequencies. For every requested rate other than 33 it is a nearest one,
    and among equally near ones the lower. *)
Theorem clkout_round_rate_nearest (rate f : Z) :
  In f max31335_clkout_freq ->
  rate <> 33 ->
  In (max31335_clkout_round_rate rate) max31335_clkout_freq
  /\ Z.abs (rate - max31335_clkout_round_rate rate) <= Z.abs (rate - f)
  /\ (Z.abs (rate - f) = Z.abs (rate - max31335_clkout_round_rate rate) ->
      max31335_clkout_round_rate rate <= f).
Proof.
  intros Hin Hne.
  unfold max31335_clkout_round_rate. cbv zeta. rewrite find_closest_clkout.
  unfold max31335_clkout_freq in *.
  destruct (rate <=? 33) eqn:E1; [apply Z.leb_le in E1 | apply Z.leb_gt in E1;
    destruct (rate <=? 544) eqn:E2; [apply Z.leb_le in E2 | apply Z.leb_gt in E2;
      destruct (rate <=? 16896) eqn:E3; [apply Z.leb_le in E3 | apply Z.leb_gt in E3]]];
    repeat match goal with
           | |- context [el ?l (Z.to_nat ?k)] =>
               let v := eval vm_compute in (el l (Z.to_nat k)) in
               change (el l (Z.to_nat k)) with v
           end;
    (split; [simpl; auto|]);
    destruct Hin as [<-|[<-|[<-|[<-|[]]]]]; split; lia.
Qed.

Lemma clkout_round_rate_nearest_witness :
  In (max31335_clkout_round_rate 2000) max31335_clkout_freq
  /\ Z.abs (2000 - max31335_clkout_round_rate 2000) <= Z.abs (2000 - 32768)
  /\ (Z.abs (2000 - 32768) = Z.abs (2000 - max31335_clkout_round_rate 2000) ->
      max31335_clkout_round_rate 2000 <= 32768).
Proof.
  apply (clkout_round_rate_nearest 2000 32768).
  - simpl. auto.
  - lia.
Defined.

(** At 33 Hz the midpoint between 1 and 64, rounded up by
    [DIV_ROUND_CLOSEST], still selects 1 Hz, although 64 Hz is nearer. *)
Lemma clkout_round_rate_33 :
  max31335_clkout_round_rate 33 = 1
  /\ Z.abs (33 - 64) < Z.abs (33 - 1).
Proof. split; [reflexivity | lia]. Qed.

(** X16. After [max31335_clkout_set_rate] for any requested rate,
    [max31335_clkout_recalc_rate] reports the rate
    [max31335_clkout_round_rate] promised; the clock output enable bit, the
    other upper bits of the configuration register and every other register
    are unchanged. *)
Theorem clkout_set_rate_recalc_rate (w : world) (rate parent parent' : Z) :
  healthy 2 w ->
  exists w1 w2,
    max31335_clkout_set_rate rate parent w = (0, w1)
    /\ max31335_clkout_recalc_rate parent' w1
       = (max31335_clkout_round_rate rate, w2)
    /\ Z.land (reg_val w1 MAX31335_RTC_CONFIG2) 0xFC
       = Z.land (reg_val w MAX31335_RTC_CONFIG2) 0xFC
    /\ (forall r, r <> MAX31335_RTC_CONFIG2 -> regs w1 r = regs w r).
Proof.
  intros Hh.
  assert (H0 : fault w (ticks w) = 0) by (eapply healthy_now; eassumption).
  unfold max31335_clkout_set_rate. cbv zeta.
  change (__roundup_pow_of_two (Z.of_nat (List.length max31335_clkout_freq)) - 1) with 3.
  rewrite regmap_update_bits_ok by exact H0.
  set (w1 := mkWorld _ _ _ _).
  destruct (freq_bits (reg_val w MAX31335_RTC_CONFIG2) (u8_range _)
                      (find_closest rate max31335_clkout_freq)
                      (find_closest_clkout_range rate)) as (Hu & Hlo & Hhi).
  assert (Hreg : reg_val w1 MAX31335_RTC_CONFIG2
                 = Z.lor (Z.land (reg_val w MAX31335_RTC_CONFIG2) 0xFC)
                         (find_closest rate max31335_clkout_freq)).
  { subst w1. unfold reg_val at 1. cbn [regs]. unfold upd. rewrite Z.eqb_refl.
    rewrite Hu. rewrite <- Hu. unfold u8. now rewrite Z.mod_mod by (simpl; lia). }
  exists w1. eexists. split; [reflexivity|]. split; [|split].
  - rewrite recalc_rate_ok
      by (subst w1; eapply healthy_now; apply healthy_next; eassumption).
    rewrite Hreg, Hlo. reflexivity.
  - rewrite Hreg. exact Hhi.
  - intros r Hr. subst w1. cbn [regs]. unfold upd. apply Z.eqb_neq in Hr. now rewrite Hr.
Qed.

Lemma clkout_set_rate_recalc_rate_witness :
  exists w1 w2,
    max31335_clkout_set_rate 40000 0 world_busy = (0, w1)
    /\ max31335_clkout_recalc_rate 0 w1 = (max31335_clkout_round_rate 40000, w2)
    /\ Z.land (reg_val w1 MAX31335_RTC_CONFIG2) 0xFC
       = Z.land (reg_val world_busy MAX31335_RTC_CONFIG2) 0xFC
    /\ (forall r, r <> MAX31335_RTC_CONFIG2 -> regs w1 r = regs world_busy r).
Proof.
  apply (clkout_set_rate_recalc_rate world_busy 40000 0 0).
  intros i Hi. reflexivity.
Defined.

(** X17. On a healthy bus, after [max31335_clkout_enable] the output reads
    as enabled and after [max31335_clkout_disable] as disabled; both leave
    the selected frequency, the other bits of the configuration register and
    every other register unchanged. *)
Theorem clkout_enable_disable (w : world) :
  healthy 2 w ->
  (exists w1 w2,
      max31335_clkout_enable w = (0, w1)
      /\ max31335_clkout_is_enabled w1 = (1, w2)
      /\ Z.land (reg_val w1 MAX31335_RTC_CONFIG2) 0xFB
         = Z.land (reg_val w MAX31335_RTC_CONFIG2) 0xFB
      /\ (forall r, r <> MAX31335_RTC_CONFIG2 -> regs w1 r = regs w r))
  /\ (exists w1 w2,
         max31335_clkout_disable w = (tt, w1)
         /\ max31335_clkout_is_enabled w1 = (0, w2)
         /\ Z.land (reg_val w1 MAX31335_RTC_CONFIG2) 0xFB
            = Z.land (reg_val w MAX31335_RTC_CONFIG2) 0xFB
         /\ (forall r, r <> MAX31335_RTC_CONFIG2 -> regs w1 r = regs w r)).
Proof.
  intros Hh.
  assert (H0 : fault w (ticks w) = 0) by (eapply healthy_now; eassumption).
  destruct (enclko_bits (reg_val w MAX31335_RTC_CONFIG2) (u8_range _))
    as (Hset & Hclr & Hon & Hoff & Hk1 & Hk0).
  split.
  - unfold max31335_clkout_enable, regmap_set_bits.
    rewrite regmap_update_bits_ok by exact H0.
    change MAX31335_ENCLKO with 4.
    set (w1 := mkWorld _ _ _ _).
    assert (Hreg : reg_val w1 MAX31335_RTC_CONFIG2
                   = Z.lor (Z.land (reg_val w MAX31335_RTC_CONFIG2) 0xFB) 4).
    { subst w1. unfold reg_val at 1. cbn [regs]. unfold upd. rewrite Z.eqb_refl.
      rewrite Hset. rewrite <- Hset. unfold u8. now rewrite Z.mod_mod by (simpl; lia). }
    exists w1. eexists. split; [reflexivity|]. split; [|split].
    + rewrite is_enabled_ok
        by (subst w1; eapply healthy_now; apply healthy_next; eassumption).
      change MAX31335_ENCLKO with 4. rewrite Hreg, Hon. reflexivity.
    + rewrite Hreg. exact Hk1.
    + intros r Hr. subst w1. cbn [regs]. unfold upd. apply Z.eqb_neq in Hr.
      now rewrite Hr.
  - unfold max31335_clkout_disable, regmap_clear_bits, Bind.
    rewrite regmap_update_bits_ok by exact H0. cbv beta iota.
    change MAX31335_ENCLKO with 4.
    set (w1 := mkWorld _ _ _ _).
    assert (Hreg : reg_val w1 MAX31335_RTC_CONFIG2
                   = Z.land (reg_val w MAX31335_RTC_CONFIG2) 0xFB).
    { subst w1. unfold reg_val at 1. cbn [regs]. unfold upd. rewrite Z.eqb_refl.
      rewrite Hclr. rewrite <- Hclr. unfold u8. now rewrite Z.mod_mod by (simpl; lia). }
    exists w1. eexists. split; [reflexivity|]. split; [|split].
    + rewrite is_enabled_ok
        by (subst w1; eapply healthy_now; apply healthy_next; eassumption).
      change MAX31335_ENCLKO with 4. rewrite Hreg, Hoff. reflexivity.
    + rewrite Hreg. exact Hk0.
    + intros r Hr. subst w1. cbn [regs]. unfold upd. apply Z.eqb_neq in Hr.
      now rewrite Hr.
Qed.

Lemma clkout_enable_disable_witness :
  (exists w1 w2,
      max31335_clkout_enable world_busy = (0, w1)
      /\ max31335_clkout_is_enabled w1 = (1, w2)
      /\ Z.land (reg_val w1 MAX31335_RTC_CONFIG2) 0xFB
         = Z.land (reg_val world_busy MAX31335_RTC_CONFIG2) 0xFB
      /\ (forall r, r <> MAX31335_RTC_CONFIG2 -> regs w1 r = regs world_busy r))
  /\ (exists w1 w2,
         max31335_clkout_disable world_busy = (tt, w1)
         /\ max31335_clkout_is_enabled w1 = (0, w2)
         /\ Z.land (reg_val w1 MAX31335_RTC_CONFIG2) 0xFB
            = Z.land (reg_val world_busy MAX31335_RTC_CONFIG2) 0xFB
         /\ (forall r, r <> MAX31335_RTC_CONFIG2 -> regs w1 r = regs world_busy r)).
Proof.
  apply (clkout_enable_disable world_busy).
  intros i Hi. reflexivity.
Defined.

(** X18. When the bus transfer fails, [max31335_clkout_recalc_rate]
    reports rate 0, [max31335_clkout_is_enabled] and
    [max31335_clkout_enable] return the error code, and
    [max31335_clkout_disable] drops it; no register changes. *)
Theorem clkout_bus_errors (w : world) (parent : Z) :
  fault w (ticks w) <> 0 ->
  fst (max31335_clkout_recalc_rate parent w) = 0
  /\ fst (max31335_clkout_is_enabled w) = fault w (ticks w)
  /\ fst (max31335_clkout_enable w) = fault w (ticks w)
  /\ fst (max31335_clkout_disable w) = tt
  /\ regs (snd (max31335_clkout_disable w)) = regs w
  /\ regs (snd (max31335_clkout_enable w)) = regs w.
Proof.
  intros H. pose proof H as Hb. apply Z.eqb_neq in Hb.
  unfold max31335_clkout_recalc_rate, max31335_clkout_is_enabled,
    max31335_clkout_enable, max31335_clkout_disable, regmap_set_bits,
    regmap_clear_bits, Bind.
  rewrite !regmap_read_fail by exact H.
  rewrite !regmap_update_bits_fail by exact H.
  cbv beta iota. rewrite Hb. repeat split.
Qed.

Lemma clkout_bus_errors_witness :
  fst (max31335_clkout_recalc_rate 0 world_bus_down) = 0
  /\ fst (max31335_clkout_is_enabled world_bus_down) = -5
  /\ fst (max31335_clkout_enable world_bus_down) = -5
  /\ fst (max31335_clkout_disable world_bus_down) = tt
  /\ regs (snd (max31335_clkout_disable world_bus_down)) = regs world_bus_down
  /\ regs (snd (max31335_clkout_enable world_bus_down)) = regs world_bus_down.
Proof.
  apply (clkout_bus_errors world_bus_down 0). simpl. lia.
Defined.

(** X19. Whatever the configuration register holds,
    [max31335_clkout_recalc_rate] reports 0 or one of the four table
    frequencies: the index it masks out never leaves the table. *)
Theorem clkout_recalc_rate_in_table (w : world) (parent : Z) :
  fst (max31335_clkout_recalc_rate parent w) = 0
  \/ In (fst (max31335_clkout_recalc_rate parent w)) max31335_clkout_freq.
Proof.
  destruct (Z.eq_dec (fault w (ticks w)) 0) as [H|H].
  - right. rewrite recalc_rate_ok by exact H. cbn [fst].
    pose proof (u8_range (regs w MAX31335_RTC_CONFIG2)) as Hb. unfold reg_val.
    set (b := u8 (regs w MAX31335_RTC_CONFIG2)) in *. clearbody b.
    assert (Hc : existsb (Z.eqb (el max31335_clkout_freq (Z.to_nat (Z.land b 3))))
                         max31335_clkout_freq = true).
    { apply (range_all_spec
               (fun b => existsb (Z.eqb (el max31335_clkout_freq (Z.to_nat (Z.land b 3))))
                                 max31335_clkout_freq) 256 0);
        [vm_compute; reflexivity | lia]. }
    apply existsb_exists in Hc as (f & Hin & Heq). apply Z.eqb_eq in Heq.
    now rewrite Heq.
  - left. unfold max31335_clkout_recalc_rate, Bind.
    rewrite regmap_read_fail by exact H. cbv beta iota.
    apply Z.eqb_neq in H. now rewrite H.
Qed.

(** ** The earlier draft *)

Lemma draft_wday_codec : forall v, 0 <= v <= 6 ->
  Z.land (u8 (u8 (u8 v))) 0x7 = v.
Proof. by_range 0 7%nat. Qed.

Lemma draft_year_codec : forall y, 100 <= y <= 199 ->
  s32 (bcd2bin (u8 (u8 (bin2bcd (s32 (y - 100))))) + 100) = y.
Proof. by_range 100 100%nat. Qed.

(** X20. The draft's time codec round-trips over its own declared range,
    the years 2000 to 2099: what [Draft.max31335_set_time] stores,
    [Draft.max31335_get_time] decodes to the same seven fields. The draft's
    [max31335_set_time] ends without a return value on success. *)
Theorem draft_set_time_get_time_roundtrip (w : world) (tm out : rtc_time) :
  healthy 2 w ->
  tm_in_range tm ->
  tm_year tm <= 199 ->
  exists w1 w2 tm',
    Draft.max31335_set_time tm w = (None, w1)
    /\ Draft.max31335_get_time out w1 = (0, tm', w2)
    /\ same_time tm' tm.
Proof.
  intros Hh (Hs & Hm & Hhr & Hw & Hd & Hmo & Hy) Hy2.
  unfold Draft.max31335_set_time, Bind.
  rewrite regmap_bulk_write_ok by (eapply healthy_now; eassumption).
  cbv beta iota. cbn [negb Z.eqb]. unfold Ret.
  eexists; eexists; eexists. split; [reflexivity|].
  unfold Draft.max31335_get_time, Bind.
  rewrite regmap_bulk_read_ok
    by (eapply healthy_now; apply healthy_next; eassumption).
  cbv beta iota. cbn [negb Z.eqb regs]. unfold Ret.
  split; [reflexivity|].
  change 7%nat with (List.length (Draft.max31335_time_regs tm)).
  rewrite read_write_block.
  unfold Draft.max31335_time_regs. cbn [map el nth].
  unfold same_time. tm_fields.
  assert (Hhour : s32 (bcd2bin (Z.land (u8 (u8 (bin2bcd (tm_hour tm)))) 63)) = tm_hour tm).
  { revert Hhr. generalize (tm_hour tm). by_range 0 24%nat. }
  rewrite Hhour.
  rewrite !sec_codec, (mday_codec (tm_mday tm)), mon_codec_lo, draft_wday_codec,
    draft_year_codec by lia.
  repeat split.
Qed.

Lemma draft_set_time_get_time_roundtrip_witness :
  exists w1 w2 tm',
    Draft.max31335_set_time tm_2099_end world_idle = (None, w1)
    /\ Draft.max31335_get_time rtc_time_local w1 = (0, tm', w2)
    /\ same_time tm' tm_2099_end.
Proof.
  apply (draft_set_time_get_time_roundtrip world_idle tm_2099_end rtc_time_local).
  - intros i Hi. reflexivity.
  - unfold tm_in_range. simpl. lia.
  - simpl. lia.
Defined.

(** X21. The draft's [max31335_alarm_irq_enable] does not use its
    argument: for every value, also 0, it clears the alarm flag and then
    switches the alarm interrupt on. *)
Theorem draft_alarm_irq_enable_ignores_argument (w : world) (en : Z) :
  healthy 2 w ->
  exists w',
    Draft.max31335_alarm_irq_enable en w = (0, w')
    /\ FIELD_GET MAX31335_INT_EN1_A1IE (reg_val w' MAX31335_INT_EN) = 1
    /\ FIELD_GET MAX31335_STATUS1_A1F (reg_val w' MAX31335_STATUS1) = 0
    /\ trace w' = trace w ++ [EvUpdateBits MAX31335_STATUS1 MAX31335_STATUS1_A1F 0;
                              EvUpdateBits MAX31335_INT_EN MAX31335_INT_EN1_A1IE
                                           MAX31335_INT_EN1_A1IE].
Proof.
  intros Hh.
  assert (H0 : fault w (ticks w) = 0) by (eapply healthy_now; eassumption).
  unfold Draft.max31335_alarm_irq_enable, Bind.
  rewrite regmap_update_bits_ok by exact H0. cbv beta iota. cbn [negb Z.eqb].
  rewrite regmap_update_bits_ok
    by (eapply healthy_now; apply healthy_next; eassumption).
  eexists. split; [reflexivity|].
  destruct (status_int_bits (reg_val w MAX31335_STATUS1) (u8_range _)
                            (reg_val w MAX31335_INT_EN) (u8_range _)) as [Hst Hie].
  change MAX31335_STATUS1_A1F with 1. change MAX31335_INT_EN1_A1IE with 1.
  unfold reg_val. cbn [regs trace]. unfold upd.
  change (MAX31335_INT_EN =? MAX31335_INT_EN) with true.
  change (MAX31335_INT_EN =? MAX31335_STATUS1) with false.
  change (MAX31335_STATUS1 =? MAX31335_INT_EN) with false.
  change (MAX31335_STATUS1 =? MAX31335_STATUS1) with true. cbv iota.
  fold (reg_val w MAX31335_INT_EN). fold (reg_val w MAX31335_STATUS1).
  split; [exact Hie|]. split; [exact Hst|].
  now rewrite <- app_assoc.
Qed.

Lemma draft_alarm_irq_enable_ignores_argument_witness :
  exists w',
    Draft.max31335_alarm_irq_enable 0 world_pending = (0, w')
    /\ FIELD_GET MAX31335_INT_EN1_A1IE (reg_val w' MAX31335_INT_EN) = 1
    /\ FIELD_GET MAX31335_STATUS1_A1F (reg_val w' MAX31335_STATUS1) = 0
    /\ trace w' = trace world_pending
                  ++ [EvUpdateBits MAX31335_STATUS1 MAX31335_STATUS1_A1F 0;
                      EvUpdateBits MAX31335_INT_EN MAX31335_INT_EN1_A1IE
                                   MAX31335_INT_EN1_A1IE].
Proof.
  apply (draft_alarm_irq_enable_ignores_argument world_pending 0).
  intros i Hi. reflexivity.
Defined.
